(** * tapalcatl-py: tile addressing, key building and the metatile pipeline

    A shallow embedding of [server.py] and the properties its specification
    states about it.

    Conventions of the embedding.
    - Python integers are unbounded: they are [Z], and the bit operations are
      those of [Z] ([Z.land], [Z.shiftl], [Z.shiftr]); a shift by a negative
      count raises [ValueError], as in Python.
    - Python [str] values are [string]s, read as their UTF-8 bytes: the code
      concatenates them and drops a leading ["/"], which commutes with the
      encoding. Its one slice by characters is that of the ETag in
      [metatile_fetch]: an ETag is a quoted hexadecimal digest, ASCII, where a
      character is a byte. [bytes] values are [list Byte.byte].
    - Exceptions are values of [exn]; a computation that may raise returns a
      [result], and one that also touches the application (the metatile cache,
      the object store) is a function of the application state that returns
      the outcome with the new state. State changes made before a raise are
      kept, as in Python.
    - [math.log(size, 2)] is only reached with a power of two. It returns a
      double, and the zooms are compared, subtracted and truncated as doubles.
      The embedding has the address resolution twice: [meta_and_offset] with
      the mathematical value of the logarithm, the exponent ([Z.log2]), and
      [meta_and_offset_f64] with the doubles of CPython. For sizes up to
      [2^29] the two return the same; [math.log(2**29, 2)] is
      [29.000000000000004], and above [2^29] the truncated difference of two
      zooms can fall one short of the difference of the exponents.
    - The handler's [tile_pixel_size / 256] is a double as well: the
      embedding divides exactly, which is what the code computes for every
      pixel size below [2^53].
    - Logging and timing calls are left out: nothing read by the program
      depends on them. *)

From Stdlib Require Import ZArith Lia Bool List String Ascii DecimalString.
From Stdlib Require DecimalPos DecimalZ.
From Stdlib Require PrimFloat FloatOps SpecFloat.
From Stdlib.Strings Require Import Byte.
From stdpp Require Import base gmap strings.

Local Open Scope string_scope.
Local Open Scope Z_scope.

(** ** Data model *)

Definition bytes := list Byte.byte.

(** A parsed HTTP date, as seconds; every [datetime] object is truthy. *)
Definition datetime := Z.

Record TileRequest := mkTileRequest {
  z : Z;
  x : Z;
  y : Z;
  format : string
}.

Record CacheInfo := mkCacheInfo {
  last_modified : option datetime;
  etag : option string
}.

Record StorageResponse := mkStorageResponse {
  data : bytes;
  cache_info : CacheInfo
}.

#[global] Instance TileRequest_eq_dec : EqDecision TileRequest.
Proof. solve_decision. Defined.

(** ** Exceptions and the error monad *)

Inductive exn :=
| ValueError (msg : string)
| MetatileNotModifiedException
| MetatileNotFoundException (msg : string)
| UnknownMetatileException (msg : string)
| TileNotFoundInMetatile (key : string)
| BadZipFile.

Inductive result (A : Type) :=
| Ok (a : A)
| Raise (e : exn).
Arguments Ok {A} a.
Arguments Raise {A} e.

Definition rbind {A B} (m : result A) (k : A -> result B) : result B :=
  match m with
  | Ok a => k a
  | Raise e => Raise e
  end.

Declare Scope result_scope.
Delimit Scope result_scope with result.
Notation "'let!' v ':=' m 'in' k" := (rbind m (fun v => k))
  (at level 10, v name, m at level 100, k at level 200) : result_scope.
Local Open Scope result_scope.

(** ** Python primitives used by the code *)

(** [str(n)] and the [%s], [%d] and [{}] renderings of an integer. *)
Definition str_int (n : Z) : string := NilZero.string_of_int (Z.to_int n).

(** [a >> n] and [a << n]. *)
Definition py_rshift (a n : Z) : result Z :=
  if n <? 0 then Raise (ValueError "negative shift count")
  else Ok (Z.shiftr a n).

Definition py_lshift (a n : Z) : result Z :=
  if n <? 0 then Raise (ValueError "negative shift count")
  else Ok (Z.shiftl a n).

(** Truthiness of [None], of an integer and of a string. *)
Definition truthy_int (o : option Z) : bool :=
  match o with
  | Some n => negb (n =? 0)
  | None => false
  end.

Definition truthy_str (o : option string) : bool :=
  match o with
  | Some s => negb (String.eqb s EmptyString)
  | None => false
  end.

(** ** Address resolution *)

Definition is_power_of_two (num : Z) : bool :=
  negb (num =? 0) && (Z.land num (num - 1) =? 0).

Definition size_to_zoom (size : Z) : Z := Z.log2 size.

(** The condition of the max-detail-zoom branch. *)
Definition max_detail_applies (requested_tile : TileRequest) (delta_z : Z)
    (metatile_max_detail_zoom : option Z) : bool :=
  match metatile_max_detail_zoom with
  | Some m => truthy_int (Some m) && (z requested_tile - delta_z >? m)
  | None => false
  end.

(** The value of [delta_z] after the max-detail-zoom branch. *)
Definition clamp_delta_z (requested_tile : TileRequest) (meta_zoom delta_z : Z)
    (metatile_max_detail_zoom : option Z) : Z :=
  match metatile_max_detail_zoom with
  | Some m =>
      if max_detail_applies requested_tile delta_z (Some m)
      then Z.min (z requested_tile - m) meta_zoom
      else delta_z
  | None => delta_z
  end.

(** The two coordinates built in the [else] branch, for the final [delta_z]. *)
Definition split_tile (requested_tile : TileRequest) (delta_z : Z)
    : result (TileRequest * TileRequest) :=
  let! meta_x := py_rshift (x requested_tile) delta_z in
  let! meta_y := py_rshift (y requested_tile) delta_z in
  let meta := mkTileRequest (z requested_tile - delta_z) meta_x meta_y "zip" in
  let! base_x := py_lshift (x meta) delta_z in
  let! base_y := py_lshift (y meta) delta_z in
  let offset := mkTileRequest (z requested_tile - z meta)
                              (x requested_tile - base_x)
                              (y requested_tile - base_y)
                              (format requested_tile) in
  Ok (meta, offset).

Definition meta_and_offset (requested_tile : TileRequest)
    (meta_size tile_size : Z) (metatile_max_detail_zoom : option Z)
    : result (TileRequest * TileRequest) :=
  if negb (is_power_of_two meta_size) then
    Raise (ValueError ("Metatile size " +:+ str_int meta_size
                       +:+ " is not a power of two"))
  else if negb (is_power_of_two tile_size) then
    Raise (ValueError ("Tile size " +:+ str_int tile_size
                       +:+ " is not a power of two"))
  else
    let meta_zoom := size_to_zoom meta_size in
    let tile_zoom := size_to_zoom tile_size in
    if tile_zoom >? meta_zoom then
      Raise (ValueError ("Tile size must not be greater than metatile size, "
                         +:+ "but " +:+ str_int tile_size +:+ " > "
                         +:+ str_int meta_size +:+ "."))
    else
      let delta_z := meta_zoom - tile_zoom in
      if z requested_tile <? delta_z then
        Ok (mkTileRequest 0 0 0 "zip",
            mkTileRequest 0 0 0 (format requested_tile))
      else
        split_tile requested_tile
          (clamp_delta_z requested_tile meta_zoom delta_z
                         metatile_max_detail_zoom).

(** The mathematical notion the specification speaks of. *)
Definition power_of_two (n : Z) : Prop := exists k, 0 <= k /\ n = 2 ^ k.

(** ** Address resolution in double precision

    [size_to_zoom] returns a Python [float], an IEEE 754 double: the zooms are
    compared, subtracted and truncated as doubles. [meta_and_offset] above
    does this arithmetic exactly; [meta_and_offset_f64] below does it as
    CPython does, on the kernel's doubles. The two agree for sizes up to
    [2^29] (lemma [meta_and_offset_f64_exact]) and part ways above. *)

(** [floor (ln 2 * 2^256)]. *)
Definition ln2_scaled : Z :=
  80260960185991308862233904206310070533990667611589946606122867505419956976171.

(** The integer nearest to [n / d], the even one on a tie. *)
Definition round_half_even (n d : Z) : Z :=
  let q := n / d in
  let r := n mod d in
  if 2 * r <? d then q
  else if d <? 2 * r then q + 1
  else if Z.even q then q else q + 1.

(** The double nearest to [n / 2^s], for [n > 0]: [n] is cut to 53
    significant bits. *)
Definition nearest_double (n s : Z) : PrimFloat.float :=
  let drop := Z.log2 n + 1 - 53 in
  if drop <=? 0 then
    FloatOps.SF2Prim (SpecFloat.S754_finite false (Z.to_pos n) (- s))
  else
    FloatOps.SF2Prim
      (SpecFloat.S754_finite false (Z.to_pos (round_half_even n (2 ^ drop)))
         (drop - s)).

(** The C library's [log] at [2^k]: the double nearest to [k ln 2], which is
    what glibc returns for every [k] from [-1] to [1023]. *)
Definition libm_log_pow2 (k : Z) : PrimFloat.float :=
  if k =? 0 then PrimFloat.zero
  else if 0 <? k then nearest_double (k * ln2_scaled) 256
  else PrimFloat.opp (nearest_double (- k * ln2_scaled) 256).

(** [loghelper] of [mathmodule.c] on an integer that is a power of two: the
    logarithm of the integer as a double, or, when the integer is too large
    for a double, [log(x) + log(2.0) * e] for the [x = 0.5] and [e] of its
    [frexp]. *)
Definition loghelper (arg : Z) : PrimFloat.float :=
  let k := Z.log2 arg in
  if arg <? 2 ^ 1024 then libm_log_pow2 k
  else
    PrimFloat.add (libm_log_pow2 (-1))
      (PrimFloat.mul (libm_log_pow2 1)
         (PrimFloat.of_uint63 (Uint63Axioms.of_Z (k + 1)))).

(** [math.log(x, base)]. *)
Definition math_log (x base : Z) : PrimFloat.float :=
  PrimFloat.div (loghelper x) (loghelper base).

Definition size_to_zoom_f64 (size : Z) : PrimFloat.float := math_log size 2.

(** [int(f)]: truncation towards zero of the double [m * 2^e]. On an
    infinity or a NaN [int] raises; the zooms, quotients of two finite
    logarithms, are neither, and the last case is never reached. *)
Definition int_of_float (f : PrimFloat.float) : Z :=
  match FloatOps.Prim2SF f with
  | SpecFloat.S754_zero _ => 0
  | SpecFloat.S754_finite s m e =>
      let a := if 0 <=? e then Z.pos m * 2 ^ e else Z.pos m / 2 ^ (- e) in
      if s then - a else a
  | _ => 0
  end.

Definition meta_and_offset_f64 (requested_tile : TileRequest)
    (meta_size tile_size : Z) (metatile_max_detail_zoom : option Z)
    : result (TileRequest * TileRequest) :=
  if negb (is_power_of_two meta_size) then
    Raise (ValueError ("Metatile size " +:+ str_int meta_size
                       +:+ " is not a power of two"))
  else if negb (is_power_of_two tile_size) then
    Raise (ValueError ("Tile size " +:+ str_int tile_size
                       +:+ " is not a power of two"))
  else
    let meta_zoom := size_to_zoom_f64 meta_size in
    let tile_zoom := size_to_zoom_f64 tile_size in
    if PrimFloat.ltb meta_zoom tile_zoom then
      Raise (ValueError ("Tile size must not be greater than metatile size, "
                         +:+ "but " +:+ str_int tile_size +:+ " > "
                         +:+ str_int meta_size +:+ "."))
    else
      let delta_z := int_of_float (PrimFloat.sub meta_zoom tile_zoom) in
      if z requested_tile <? delta_z then
        Ok (mkTileRequest 0 0 0 "zip",
            mkTileRequest 0 0 0 (format requested_tile))
      else
        split_tile requested_tile
          (clamp_delta_z requested_tile (int_of_float meta_zoom) delta_z
                         metatile_max_detail_zoom).

(** Whether the double and the exact zoom arithmetic agree on the sizes
    [2^a] and [2^b], whose zooms as doubles are [meta_zoom] and [tile_zoom]:
    on the comparison, on [delta_z] when the tile size is not the greater,
    and on [int(meta_zoom)]. *)
Definition zooms_agree (a : Z) (meta_zoom : PrimFloat.float)
    (b : Z) (tile_zoom : PrimFloat.float) : bool :=
  Bool.eqb (PrimFloat.ltb meta_zoom tile_zoom) (b >? a)
  && ((b >? a)
      || (int_of_float (PrimFloat.sub meta_zoom tile_zoom) =? a - b))
  && (int_of_float meta_zoom =? a).

(** The same for every pair of exponents below [n]. *)
Definition zooms_agree_below (n : nat) : bool :=
  let zooms :=
    map (fun k => (Z.of_nat k, size_to_zoom_f64 (2 ^ Z.of_nat k))) (seq 0 n) in
  forallb (fun p => forallb (fun q => zooms_agree (fst p) (snd p)
                                                  (fst q) (snd q)) zooms)
          zooms.

(** ** MD5, as [hashlib.md5(...).hexdigest()] computes it (RFC 1321) *)

Module MD5.

Definition add32 (a b : Z) : Z := (a + b) mod 2 ^ 32.

Definition not32 (a : Z) : Z := Z.lxor a 0xffffffff.

Definition rotl32 (a c : Z) : Z :=
  Z.lor (Z.shiftl a c mod 2 ^ 32) (Z.shiftr a (32 - c)).

(** Per-round shift amounts. *)
Definition s_table : list Z :=
  [ 7; 12; 17; 22; 7; 12; 17; 22; 7; 12; 17; 22; 7; 12; 17; 22;
    5; 9; 14; 20; 5; 9; 14; 20; 5; 9; 14; 20; 5; 9; 14; 20;
    4; 11; 16; 23; 4; 11; 16; 23; 4; 11; 16; 23; 4; 11; 16; 23;
    6; 10; 15; 21; 6; 10; 15; 21; 6; 10; 15; 21; 6; 10; 15; 21 ].

(** [floor (2^32 * abs (sin (i + 1)))] for [i] from 0 to 63. *)
Definition K_table : list Z :=
  [ 0xd76aa478; 0xe8c7b756; 0x242070db; 0xc1bdceee;
    0xf57c0faf; 0x4787c62a; 0xa8304613; 0xfd469501;
    0x698098d8; 0x8b44f7af; 0xffff5bb1; 0x895cd7be;
    0x6b901122; 0xfd987193; 0xa679438e; 0x49b40821;
    0xf61e2562; 0xc040b340; 0x265e5a51; 0xe9b6c7aa;
    0xd62f105d; 0x02441453; 0xd8a1e681; 0xe7d3fbc8;
    0x21e1cde6; 0xc33707d6; 0xf4d50d87; 0x455a14ed;
    0xa9e3e905; 0xfcefa3f8; 0x676f02d9; 0x8d2a4c8a;
    0xfffa3942; 0x8771f681; 0x6d9d6122; 0xfde5380c;
    0xa4beea44; 0x4bdecfa9; 0xf6bb4b60; 0xbebfbc70;
    0x289b7ec6; 0xeaa127fa; 0xd4ef3085; 0x04881d05;
    0xd9d4d039; 0xe6db99e5; 0x1fa27cf8; 0xc4ac5665;
    0xf4292244; 0x432aff97; 0xab9423a7; 0xfc93a039;
    0x655b59c3; 0x8f0ccc92; 0xffeff47d; 0x85845dd1;
    0x6fa87e4f; 0xfe2ce6e0; 0xa3014314; 0x4e0811a1;
    0xf7537e82; 0xbd3af235; 0x2ad7d2bb; 0xeb86d391 ].

Definition state : Type := Z * Z * Z * Z.

Definition init : state := (0x67452301, 0xefcdab89, 0x98badcfe, 0x10325476).

(** The round function and the index of the message word it mixes in. *)
Definition round_fg (i b c d : Z) : Z * Z :=
  if i <? 16 then (Z.lor (Z.land b c) (Z.land (not32 b) d), i)
  else if i <? 32 then
    (Z.lor (Z.land d b) (Z.land (not32 d) c), (5 * i + 1) mod 16)
  else if i <? 48 then (Z.lxor (Z.lxor b c) d, (3 * i + 5) mod 16)
  else (Z.lxor c (Z.lor b (not32 d)), (7 * i) mod 16).

Definition step (m : list Z) (st : state) (i : nat) : state :=
  let '(a, b, c, d) := st in
  let '(f, g) := round_fg (Z.of_nat i) b c d in
  let f := add32 (add32 (add32 f a) (nth i K_table 0))
                 (nth (Z.to_nat g) m 0) in
  (d, add32 b (rotl32 f (nth i s_table 0)), b, c).

Definition process_block (st : state) (m : list Z) : state :=
  let '(a0, b0, c0, d0) := st in
  let '(a, b, c, d) := fold_left (step m) (seq 0 64) st in
  (add32 a0 a, add32 b0 b, add32 c0 c, add32 d0 d).

(** [n] little-endian bytes of [v]. *)
Definition le_bytes (n : nat) (v : Z) : list Z :=
  map (fun i => (v / 2 ^ (8 * Z.of_nat i)) mod 256) (seq 0 n).

Definition pad (msg : list Z) : list Z :=
  let len := Z.of_nat (length msg) in
  msg ++ [0x80] ++ repeat 0 (Z.to_nat ((55 - len) mod 64))
      ++ le_bytes 8 ((8 * len) mod 2 ^ 64).

(** Little-endian 32-bit words of a byte sequence. *)
Fixpoint words (bs : list Z) : list Z :=
  match bs with
  | b0 :: b1 :: b2 :: b3 :: rest =>
      (b0 + 2 ^ 8 * b1 + 2 ^ 16 * b2 + 2 ^ 24 * b3) :: words rest
  | _ => []
  end.

(** Blocks of sixteen words. *)
Fixpoint blocks (fuel : nat) (ws : list Z) : list (list Z) :=
  match fuel with
  | O => []
  | S fuel' =>
      match ws with
      | [] => []
      | _ => firstn 16 ws :: blocks fuel' (skipn 16 ws)
      end
  end.

Definition digest_state (msg : list Z) : state :=
  let ws := words (pad msg) in
  fold_left process_block (blocks (length ws) ws) init.

(** The sixteen bytes of the digest. *)
Definition digest (msg : list Z) : list Z :=
  let '(a, b, c, d) := digest_state msg in
  le_bytes 4 a ++ le_bytes 4 b ++ le_bytes 4 c ++ le_bytes 4 d.

Definition hex_chars : list ascii :=
  [ "0"; "1"; "2"; "3"; "4"; "5"; "6"; "7";
    "8"; "9"; "a"; "b"; "c"; "d"; "e"; "f" ]%char.

Definition hex_digit (n : Z) : ascii := nth (Z.to_nat n) hex_chars "0"%char.

Definition hex_byte (b : Z) : string :=
  String (hex_digit (b / 16)) (String (hex_digit (b mod 16)) EmptyString).

Fixpoint hex (bs : list Z) : string :=
  match bs with
  | [] => EmptyString
  | b :: rest => hex_byte b +:+ hex rest
  end.

Definition bytes_of_string (s : string) : list Z :=
  map (fun c => Z.of_N (N_of_ascii c)) (list_ascii_of_string s).

(** [hashlib.md5(s.encode('utf8')).hexdigest()]. *)
Definition hexdigest (s : string) : string :=
  hex (digest (bytes_of_string s)).

End MD5.

(** A lower-case hexadecimal digit. *)
Definition is_hex_char (c : ascii) : bool :=
  existsb (Ascii.eqb c) MD5.hex_chars.

Fixpoint is_hex_string (s : string) : bool :=
  match s with
  | EmptyString => true
  | String c rest => is_hex_char c && is_hex_string rest
  end.

(** ** Key building *)

(** [s[1:]]. *)
Definition str_tail (s : string) : string :=
  match s with
  | EmptyString => EmptyString
  | String _ rest => rest
  end.

(** The first formatted string of [compute_key]. *)
Definition tile_path (layer : string) (meta_tile : TileRequest) : string :=
  "/" +:+ layer +:+ "/" +:+ str_int (z meta_tile)
      +:+ "/" +:+ str_int (x meta_tile)
      +:+ "/" +:+ str_int (y meta_tile) +:+ "." +:+ format meta_tile.

Definition compute_key (prefix : option string) (layer : string)
    (meta_tile : TileRequest) (include_hash : bool) : string :=
  let k := tile_path layer meta_tile in
  let k :=
    if include_hash then
      let h := substring 0 5 (MD5.hexdigest k) in
      "/" +:+ h +:+ k
    else k in
  let k :=
    match prefix with
    | Some p => if truthy_str (Some p) then "/" +:+ p +:+ k else k
    | None => k
    end in
  str_tail k.

(** The key as the specification words it, for comparison with
    [compute_key]: the path ["<layer>/<zoom>/<x>/<y>.<format>"], preceded by
    the first five characters of the MD5 hex digest of that path when a hash
    is asked for, and by the prefix when it is non-empty. *)
Definition specified_path (layer : string) (meta_tile : TileRequest)
    : string :=
  layer +:+ "/" +:+ str_int (z meta_tile)
        +:+ "/" +:+ str_int (x meta_tile)
        +:+ "/" +:+ str_int (y meta_tile) +:+ "." +:+ format meta_tile.

Definition specified_key (prefix : option string) (layer : string)
    (meta_tile : TileRequest) (include_hash : bool) : string :=
  let path := specified_path layer meta_tile in
  let k :=
    if include_hash
    then substring 0 5 (MD5.hexdigest path) +:+ "/" +:+ path
    else path in
  match prefix with
  | Some p => if String.eqb p EmptyString then k else p +:+ "/" +:+ k
  | None => k
  end.

(** ** The application: configuration, collaborators and state *)

(** The settings [metatile_fetch] reads; a boolean setting stands for its
    truthiness. *)
Record Config := mkConfig {
  S3_PREFIX : option string;
  INCLUDE_HASH : bool;
  REQUESTER_PAYS : bool;
  S3_BUCKET : string
}.

(** The keyword arguments of [get_object]; an absent key is [None]. *)
Record GetParams := mkGetParams {
  Bucket : string;
  Key : string;
  IfModifiedSince : option datetime;
  IfNoneMatch : option string;
  RequestPayer : option string
}.

(** The fields the code reads from a successful [get_object] response. *)
Record GetObjectOutput := mkGetObjectOutput {
  ETag : string;
  Body : bytes;
  LastModified : datetime;
  ContentLength : Z
}.

(** What [get_object] does, as far as the program handles it: it returns a
    response, or raises a [botocore.exceptions.ClientError] whose response
    may carry an error code. Any other exception of the client, or of reading
    the body, goes through [metatile_fetch] and the handler untouched; such
    runs are outside the embedding. *)
Inductive S3Result :=
| S3Response (response : GetObjectOutput)
| ClientError (code : option string).

(** The collaborators of the core, which are not part of the program: the
    settings, [sys.getsizeof] on a [bytes] object, the object store answering
    a [get_object] call, and [zipfile.ZipFile] reading an archive's name table
    ([None] when the bytes are not an archive). *)
Record Env := mkEnv {
  config : Config;
  sys_getsizeof : bytes -> Z;
  get_object : GetParams -> S3Result;
  ZipFile : bytes -> option (gmap string bytes)
}.

(** *** The metatile cache

    [cachetools.LFUCache] is a library class. Its operations are written here
    as the library documents them: entries carry their size and use count and
    are kept in insertion order, a hit counts as a use, a miss changes
    nothing, and an insertion evicts least-used entries until the new one
    fits, or raises [ValueError] when the value alone exceeds the budget. *)

Record CacheEntry := mkCacheEntry {
  entry_key : TileRequest;
  entry_value : StorageResponse;
  entry_size : Z;
  entry_uses : Z
}.

Record LFUCache := mkLFUCache {
  maxsize : Z;
  currsize : Z;
  entries : list CacheEntry
}.

Definition entry_has_key (k : TileRequest) (e : CacheEntry) : bool :=
  bool_decide (entry_key e = k).

Definition cache_find (c : LFUCache) (k : TileRequest) : option CacheEntry :=
  find (entry_has_key k) (entries c).

(** [key in cache], and the value stored under it. *)
Definition cache_lookup (c : LFUCache) (k : TileRequest)
    : option StorageResponse :=
  option_map entry_value (cache_find c k).

Definition use_entry (k : TileRequest) (e : CacheEntry) : CacheEntry :=
  if entry_has_key k e
  then mkCacheEntry (entry_key e) (entry_value e) (entry_size e)
                    (entry_uses e + 1)
  else e.

(** [cache.get(key)]. *)
Definition cache_get (c : LFUCache) (k : TileRequest)
    : option StorageResponse * LFUCache :=
  match cache_lookup c k with
  | Some v => (Some v, mkLFUCache (maxsize c) (currsize c)
                                  (map (use_entry k) (entries c)))
  | None => (None, c)
  end.

(** The least-used entry, the earliest inserted among equals. *)
Fixpoint least_used (es : list CacheEntry) : option CacheEntry :=
  match es with
  | [] => None
  | e :: rest =>
      match least_used rest with
      | Some e' => if entry_uses e' <? entry_uses e then Some e' else Some e
      | None => Some e
      end
  end.

Definition cache_remove (c : LFUCache) (k : TileRequest) : LFUCache :=
  match cache_find c k with
  | Some e =>
      mkLFUCache (maxsize c) (currsize c - entry_size e)
        (filter (fun e' => negb (entry_has_key k e')) (entries c))
  | None => c
  end.

(** [cache.popitem()]. *)
Definition cache_popitem (c : LFUCache) : LFUCache :=
  match least_used (entries c) with
  | Some e => cache_remove c (entry_key e)
  | None => c
  end.

(** [while currsize + size > maxsize: popitem()]; each round removes an
    entry, so the loop runs at most once per entry. *)
Fixpoint cache_evict (fuel : nat) (c : LFUCache) (size : Z) : LFUCache :=
  match fuel with
  | O => c
  | S fuel' =>
      if currsize c + size >? maxsize c
      then cache_evict fuel' (cache_popitem c) size
      else c
  end.

(** [cache[key] = value]. *)
Definition cache_setitem (env : Env) (c : LFUCache) (k : TileRequest)
    (v : StorageResponse) : result LFUCache :=
  let size := sys_getsizeof env (data v) in
  if size >? maxsize c then Raise (ValueError "value too large")
  else
    let grows :=
      match cache_find c k with
      | Some e => entry_size e <? size
      | None => true
      end in
    let c := if grows then cache_evict (length (entries c)) c size else c in
    match cache_find c k with
    | Some e =>
        Ok (mkLFUCache (maxsize c) (currsize c + (size - entry_size e))
              (map (fun e' =>
                      if entry_has_key k e'
                      then mkCacheEntry k v size (entry_uses e' + 1)
                      else e')
                   (entries c)))
    | None =>
        Ok (mkLFUCache (maxsize c) (currsize c + size)
              (entries c ++ [mkCacheEntry k v size 1]))
    end.

(** The mutable part of the application: the cache, and the calls made to the
    object store so far, latest first. *)
Record AppState := mkAppState {
  metatile_lfu : LFUCache;
  s3_calls : list GetParams
}.

(** ** Fetching a metatile *)

(** [s[1:-1]], applied to an ETag: a quoted hexadecimal digest, in which a
    character is a byte. *)
Definition strip_quotes (s : string) : string :=
  substring 1 (String.length s - 2) s.

(** The [get_params] dictionary [metatile_fetch] builds. A [datetime] is
    truthy, so [IfModifiedSince] is present exactly when [last_modified] is;
    an empty [etag] is falsy and is left out. *)
Definition get_params_for (env : Env) (meta : TileRequest)
    (cache_info : CacheInfo) : GetParams :=
  let s3_key_prefix := S3_PREFIX (config env) in
  let include_hash := INCLUDE_HASH (config env) in
  let requester_pays := REQUESTER_PAYS (config env) in
  let s3_bucket := S3_BUCKET (config env) in
  let s3_key := compute_key s3_key_prefix "all" meta include_hash in
  mkGetParams s3_bucket s3_key
    (last_modified cache_info)
    (if truthy_str (etag cache_info) then etag cache_info else None)
    (if requester_pays then Some "requester" else None).

(** [str(e.response.get('Error', {}).get('Code'))]. *)
Definition error_code_str (code : option string) : string :=
  match code with
  | Some c => c
  | None => "None"
  end.

(** The [except botocore.exceptions.ClientError] handler. *)
Definition client_error_handler (s3_bucket s3_key : string)
    (code : option string) : exn :=
  let error_code := error_code_str code in
  if String.eqb error_code "304" then MetatileNotModifiedException
  else if String.eqb error_code "NoSuchKey" then
    MetatileNotFoundException
      ("No tile found at s3://" +:+ s3_bucket +:+ "/" +:+ s3_key)
  else
    UnknownMetatileException
      (error_code +:+ " at s3://" +:+ s3_bucket +:+ "/" +:+ s3_key).

(** A cached [StorageResponse] is a non-empty tuple, so [if cached] holds
    exactly on a hit. *)
Definition metatile_fetch (env : Env) (meta : TileRequest)
    (cache_info : CacheInfo) (st : AppState)
    : result StorageResponse * AppState :=
  let cache := metatile_lfu st in
  let '(cached, cache) := cache_get cache meta in
  match cached with
  | Some hit => (Ok hit, mkAppState cache (s3_calls st))
  | None =>
      let get_params := get_params_for env meta cache_info in
      let calls := get_params :: s3_calls st in
      match get_object env get_params with
      | S3Response response =>
          let quoteless_etag := strip_quotes (ETag response) in
          let result :=
            mkStorageResponse (Body response)
              (mkCacheInfo (Some (LastModified response))
                           (Some quoteless_etag)) in
          match cache_setitem env cache meta result with
          | Ok cache => (Ok result, mkAppState cache calls)
          | Raise e => (Raise e, mkAppState cache calls)
          end
      | ClientError code =>
          (Raise (client_error_handler (Bucket get_params) (Key get_params)
                                       code),
           mkAppState cache calls)
      end
  end.

(** ** Extracting a tile *)

(** The in-archive entry name. *)
Definition offset_key (offset : TileRequest) : string :=
  str_int (z offset) +:+ "/" +:+ str_int (x offset)
    +:+ "/" +:+ str_int (y offset) +:+ "." +:+ format offset.

Definition extract_tile (env : Env) (metatile_bytes : bytes)
    (offset : TileRequest) : result bytes :=
  match ZipFile env metatile_bytes with
  | None => Raise BadZipFile
  | Some archive =>
      match archive !! offset_key offset with
      | Some tile => Ok tile
      | None => Raise (TileNotFoundInMetatile (offset_key offset))
      end
  end.

(** The third parameter is [cache_info] in the program; it is renamed here
    because the body also reads the field of that name. *)
Definition retrieve_tile (env : Env) (meta offset : TileRequest)
    (request_cache_info : CacheInfo) (st : AppState)
    : result StorageResponse * AppState :=
  let '(fetched, st) := metatile_fetch env meta request_cache_info st in
  match fetched with
  | Raise e => (Raise e, st)
  | Ok metatile_data =>
      match extract_tile env (data metatile_data) offset with
      | Raise e => (Raise e, st)
      | Ok tile_data =>
          (Ok (mkStorageResponse tile_data
                 (mkCacheInfo (last_modified (cache_info metatile_data))
                              (etag (cache_info metatile_data)))),
           st)
      end
  end.

(** ** A small instance, to run the pipeline on

    One bucket with hashed keys and no prefix; an interpreter that sizes a
    [bytes] object at 33 bytes plus its length; an archive reader that finds
    the single entry ["3/2/4.mvt"] in every non-empty byte string; and a cache
    of 100 MB that starts empty. The object store is left open. *)
Definition sample_config : Config := mkConfig None true false "tiles".

Definition sample_env (store : GetParams -> S3Result) : Env :=
  mkEnv sample_config
        (fun b => 33 + Z.of_nat (length b))
        store
        (fun b => match b with
                  | [] => None
                  | _ => Some {[ "3/2/4.mvt" := [x07; x08] ]}
                  end).

(** A store that holds the metatile [(2, 1, 1)] and nothing else. *)
Definition sample_store (p : GetParams) : S3Result :=
  if String.eqb (Key p) "763c0/all/2/1/1.zip"
  then S3Response (mkGetObjectOutput "'5d41402a'" [x50; x4b] 1541289600 2)
  else ClientError (Some "NoSuchKey").

Definition empty_state : AppState :=
  mkAppState (mkLFUCache 100000000 0 []) [].

(** The state after one successful fetch of the metatile [(2, 1, 1)]. *)
Definition warm_state : AppState :=
  snd (metatile_fetch (sample_env sample_store) (mkTileRequest 2 1 1 "zip")
                      (mkCacheInfo None None) empty_state).

(** ** The tile route *)

(** [MIME_TYPES]. *)
Definition MIME_TYPES : gmap string string :=
  {[ "json" := "application/json";
     "mvt" := "application/x-protobuf";
     "mvtb" := "application/x-protobuf";
     "topojson" := "application/json" ]}.

(** The settings [handle_tile] reads; [METATILE_SIZE] is taken as set to an
    integer, the others may be absent. *)
Record RouteConfig := mkRouteConfig {
  METATILE_SIZE : Z;
  METATILE_MAX_DETAIL_ZOOM : option Z;
  CACHE_MAX_AGE : option Z;
  SHARED_CACHE_MAX_AGE : option Z
}.

(** The two request headers the handler reads. *)
Record Headers := mkHeaders {
  If_Modified_Since : option string;
  If_None_Match : option string
}.

(** The parts of the response object the handler sets; the field names of
    [CacheInfo] and [StorageResponse] being taken, the response's own carry
    a prefix. *)
Record CacheControl := mkCacheControl {
  public : bool;
  max_age : option Z;
  s_maxage : option Z
}.

Record Response := mkResponse {
  response_data : bytes;
  status_code : Z;
  content_type : option string;
  response_last_modified : option datetime;
  cache_control : CacheControl;
  response_etag : option string
}.

(** What a call of the handler comes to: a response object, a
    [(body, status)] pair, an [abort], or an exception it does not catch. *)
Inductive HandlerResult :=
| Responded (response : Response)
| Plain (body : string) (status : Z)
| Aborted (status : Z) (description : string)
| Uncaught (e : exn).

(** [dateutil.parser.parse] is a library function: it is a parameter, which
    may raise. *)
Definition parse_header_time (parse : string -> result datetime)
    (tstamp : option string) : result (option datetime) :=
  if truthy_str tstamp then
    match tstamp with
    | Some s => let! t := parse s in Ok (Some t)
    | None => Ok None
    end
  else Ok None.

(** [tile_pixel_size or 256]. *)
Definition pixel_size_or_default (tile_pixel_size : option Z) : Z :=
  match tile_pixel_size with
  | Some n => if truthy_int (Some n) then n else 256
  | None => 256
  end.

(** The route arguments are non-negative integers. [tile_pixel_size / 256]
    is a division in doubles; below [2^53] its result is exact, and an
    integer exactly when 256 divides the pixel size, which is how the test is
    written here. From [2^53] on the quotient is rounded, so that pixel sizes
    that 256 does not divide pass the test, and from [256 * 2^1024] on the
    division raises [OverflowError]; the embedding does not follow the code
    there. *)
Definition handle_tile (env : Env) (rc : RouteConfig)
    (parse : string -> result datetime) (headers : Headers)
    (z x y : Z) (fmt : string) (tile_pixel_size : option Z) (st : AppState)
    : HandlerResult * AppState :=
  let requested_tile := mkTileRequest z x y fmt in
  let tile_pixel_size := pixel_size_or_default tile_pixel_size in
  if negb (tile_pixel_size mod 256 =? 0) then
    (Aborted 400 ("Invalid tile size. " +:+ str_int tile_pixel_size
                  +:+ " is not a multiple of 256."), st)
  else
    let tile_size := tile_pixel_size / 256 in
    match meta_and_offset requested_tile (METATILE_SIZE rc) tile_size
                          (METATILE_MAX_DETAIL_ZOOM rc) with
    | Raise e => (Uncaught e, st)
    | Ok (meta, offset) =>
        match parse_header_time parse (If_Modified_Since headers) with
        | Raise e => (Uncaught e, st)
        | Ok header_time =>
            let request_cache_info :=
              mkCacheInfo header_time (If_None_Match headers) in
            let '(outcome, st) :=
              retrieve_tile env meta offset request_cache_info st in
            match outcome with
            | Ok storage_result =>
                (Responded
                   (mkResponse (data storage_result) 200
                      (MIME_TYPES !! fmt)
                      (last_modified (cache_info storage_result))
                      (mkCacheControl true (CACHE_MAX_AGE rc)
                         (if truthy_int (SHARED_CACHE_MAX_AGE rc)
                          then SHARED_CACHE_MAX_AGE rc else None))
                      (etag (cache_info storage_result))), st)
            | Raise (MetatileNotFoundException _) =>
                (Plain "Metatile not found" 404, st)
            | Raise (TileNotFoundInMetatile _) =>
                (Plain "Tile not found" 404, st)
            | Raise MetatileNotModifiedException => (Plain EmptyString 304, st)
            | Raise (UnknownMetatileException _) =>
                (Plain "Metatile fetch problem" 500, st)
            | Raise e => (Uncaught e, st)
            end
        end
    end.

(** The settings of the sample instance: metatiles of size 8, detail up to
    zoom 12. *)
Definition sample_route : RouteConfig :=
  mkRouteConfig 8 (Some 12) (Some 300) None.

(** A date parser that knows one date. *)
Definition sample_parse (s : string) : result datetime :=
  if String.eqb s "Sun, 04 Nov 2018 00:00:00 GMT" then Ok 1541289600
  else Raise (ValueError "Unknown string format").

(** * Properties *)

(** ** Properties of the address resolution *)

(** The end-to-end scenario of the specification. *)
Example meta_and_offset_scenario :
  meta_and_offset (mkTileRequest 5 10 12 "mvt") 8 1 (Some 12)
  = Ok (mkTileRequest 2 1 1 "zip", mkTileRequest 3 2 4 "mvt").
Proof. reflexivity. Qed.

Example meta_and_offset_bad_size :
  meta_and_offset (mkTileRequest 5 10 12 "mvt") 6 1 None
  = Raise (ValueError "Metatile size 6 is not a power of two").
Proof. reflexivity. Qed.


Lemma is_power_of_two_pow2 (k : Z) : 0 <= k -> is_power_of_two (2 ^ k) = true.
Proof.
  intros Hk. unfold is_power_of_two.
  assert (Hpos : 0 < 2 ^ k) by (apply Z.pow_pos_nonneg; lia).
  apply andb_true_intro. split.
  - apply negb_true_iff, Z.eqb_neq. lia.
  - apply Z.eqb_eq.
    replace (2 ^ k - 1) with (Z.ones k) by (rewrite Z.ones_equiv; lia).
    rewrite Z.land_ones by lia. apply Z_mod_same_full.
Qed.

Lemma is_power_of_two_inv (n : Z) :
  is_power_of_two n = true -> power_of_two n.
Proof.
  unfold is_power_of_two. intros H.
  apply andb_prop in H as [Hnz Hland].
  apply negb_true_iff, Z.eqb_neq in Hnz. apply Z.eqb_eq in Hland.
  destruct (Z.lt_trichotomy n 0) as [Hneg | [-> | Hpos]]; [ | lia | ].
  - assert (Z.land n (n - 1) < 0) by (apply Z.land_neg; lia). lia.
  - pose proof (Z.log2_spec n Hpos) as [Hlo Hhi].
    pose proof (Z.log2_nonneg n) as Hk.
    exists (Z.log2 n). split; [ exact Hk | ].
    destruct (Z.eq_dec n (2 ^ Z.log2 n)) as [ | Hne ]; [ assumption | exfalso ].
    assert (Hlog : Z.log2 (n - 1) = Z.log2 n)
      by (apply Z.log2_unique; [ exact Hk | lia ]).
    assert (Hbit : Z.testbit (Z.land n (n - 1)) (Z.log2 n) = true).
    { rewrite Z.land_spec, Z.bit_log2 by lia.
      rewrite <- Hlog. rewrite Z.bit_log2; [ reflexivity | ].
      assert (0 < 2 ^ Z.log2 n) by (apply Z.pow_pos_nonneg; lia). lia. }
    rewrite Hland, Z.bits_0 in Hbit. discriminate.
Qed.

Lemma is_power_of_two_spec (n : Z) :
  is_power_of_two n = true <-> power_of_two n.
Proof.
  split.
  - apply is_power_of_two_inv.
  - intros (k & Hk & ->). now apply is_power_of_two_pow2.
Qed.

Lemma size_to_zoom_pow2 (k : Z) : 0 <= k -> size_to_zoom (2 ^ k) = k.
Proof. intros Hk. unfold size_to_zoom. now apply Z.log2_pow2. Qed.

Lemma size_to_zoom_nonneg (n : Z) : 0 <= size_to_zoom n.
Proof. apply Z.log2_nonneg. Qed.

(** The order of two powers of two is the order of their zooms. *)
Lemma size_to_zoom_le (a b : Z) :
  power_of_two a -> power_of_two b ->
  (a <= b <-> size_to_zoom a <= size_to_zoom b).
Proof.
  intros (i & Hi & ->) (j & Hj & ->).
  rewrite !size_to_zoom_pow2 by assumption.
  split; intros H.
  - apply (Z.pow_le_mono_r_iff 2); lia.
  - apply Z.pow_le_mono_r; lia.
Qed.

(** With valid sizes the three checks pass. *)
Lemma meta_and_offset_valid (requested_tile : TileRequest)
    (meta_size tile_size : Z) (mdz : option Z) :
  power_of_two meta_size -> power_of_two tile_size -> tile_size <= meta_size ->
  meta_and_offset requested_tile meta_size tile_size mdz =
    let meta_zoom := size_to_zoom meta_size in
    let delta_z := meta_zoom - size_to_zoom tile_size in
    if z requested_tile <? delta_z then
      Ok (mkTileRequest 0 0 0 "zip",
          mkTileRequest 0 0 0 (format requested_tile))
    else split_tile requested_tile
           (clamp_delta_z requested_tile meta_zoom delta_z mdz).
Proof.
  intros Hm Ht Hle. unfold meta_and_offset.
  rewrite (proj2 (is_power_of_two_spec _) Hm).
  rewrite (proj2 (is_power_of_two_spec _) Ht). cbn [negb].
  apply (size_to_zoom_le _ _ Ht Hm) in Hle.
  destruct (Z.gtb_spec (size_to_zoom tile_size) (size_to_zoom meta_size));
    [ lia | reflexivity ].
Qed.

Lemma delta_z_nonneg (meta_size tile_size : Z) :
  power_of_two meta_size -> power_of_two tile_size -> tile_size <= meta_size ->
  0 <= size_to_zoom meta_size - size_to_zoom tile_size.
Proof.
  intros Hm Ht Hle. apply (size_to_zoom_le _ _ Ht Hm) in Hle. lia.
Qed.

Lemma clamp_delta_z_nonneg (requested_tile : TileRequest)
    (meta_zoom delta_z : Z) (mdz : option Z) :
  0 <= meta_zoom -> 0 <= delta_z ->
  0 <= clamp_delta_z requested_tile meta_zoom delta_z mdz.
Proof.
  intros Hm Hd. unfold clamp_delta_z, max_detail_applies.
  destruct mdz as [m | ]; [ | exact Hd ].
  destruct (truthy_int (Some m)); cbn [andb]; [ | exact Hd ].
  destruct (Z.gtb_spec (z requested_tile - delta_z) m); lia.
Qed.

Lemma clamp_delta_z_unchanged (requested_tile : TileRequest)
    (meta_zoom delta_z : Z) (mdz : option Z) :
  max_detail_applies requested_tile delta_z mdz = false ->
  clamp_delta_z requested_tile meta_zoom delta_z mdz = delta_z.
Proof.
  intros H. unfold clamp_delta_z. destruct mdz; [ now rewrite H | reflexivity ].
Qed.

(** With a non-negative [delta_z] neither shift raises. *)
Lemma split_tile_nonneg (requested_tile : TileRequest) (delta_z : Z) :
  0 <= delta_z ->
  split_tile requested_tile delta_z =
    Ok (mkTileRequest (z requested_tile - delta_z)
                      (Z.shiftr (x requested_tile) delta_z)
                      (Z.shiftr (y requested_tile) delta_z) "zip",
        mkTileRequest
          (z requested_tile - (z requested_tile - delta_z))
          (x requested_tile
           - Z.shiftl (Z.shiftr (x requested_tile) delta_z) delta_z)
          (y requested_tile
           - Z.shiftl (Z.shiftr (y requested_tile) delta_z) delta_z)
          (format requested_tile)).
Proof.
  intros Hd. unfold split_tile, py_rshift, py_lshift.
  destruct (Z.ltb_spec delta_z 0); [ lia | reflexivity ].
Qed.

(** What is left of a coordinate once its metatile's corner is taken off. *)
Lemma shift_remainder (a d : Z) :
  0 <= d -> a - Z.shiftl (Z.shiftr a d) d = a mod 2 ^ d.
Proof.
  intros Hd. rewrite Z.shiftr_div_pow2, Z.shiftl_mul_pow2 by assumption.
  assert (0 < 2 ^ d) by (apply Z.pow_pos_nonneg; lia).
  pose proof (Z.div_mod a (2 ^ d)). lia.
Qed.

(** *** Double and exact zoom arithmetic *)

Lemma zooms_agree_below_30 : zooms_agree_below 30 = true.
Proof. vm_compute. reflexivity. Qed.

Lemma zooms_agree_below_sound (n : nat) (a b : Z) :
  zooms_agree_below n = true ->
  0 <= a < Z.of_nat n -> 0 <= b < Z.of_nat n ->
  zooms_agree a (size_to_zoom_f64 (2 ^ a)) b (size_to_zoom_f64 (2 ^ b)) = true.
Proof.
  intros Hall Ha Hb.
  unfold zooms_agree_below in Hall. cbv zeta in Hall.
  rewrite forallb_forall in Hall.
  assert (Hin : forall k, 0 <= k < Z.of_nat n ->
            In (k, size_to_zoom_f64 (2 ^ k))
               (map (fun k => (Z.of_nat k, size_to_zoom_f64 (2 ^ Z.of_nat k)))
                    (seq 0 n))).
  { intros k Hk. apply in_map_iff. exists (Z.to_nat k).
    rewrite Z2Nat.id by lia. split; [ reflexivity | ].
    apply in_seq. lia. }
  specialize (Hall _ (Hin a Ha)). rewrite forallb_forall in Hall.
  exact (Hall _ (Hin b Hb)).
Qed.

Lemma zooms_agree_small (a b : Z) :
  0 <= a <= 29 -> 0 <= b <= 29 ->
  zooms_agree a (size_to_zoom_f64 (2 ^ a)) b (size_to_zoom_f64 (2 ^ b)) = true.
Proof.
  intros Ha Hb.
  apply (zooms_agree_below_sound 30 a b zooms_agree_below_30); lia.
Qed.

(** A power of two up to [2^29] is [2^k] for an exponent up to 29. *)
Lemma power_of_two_small (n : Z) :
  power_of_two n -> n <= 2 ^ 29 -> exists k, 0 <= k <= 29 /\ n = 2 ^ k.
Proof.
  intros [ k [ Hk -> ] ] Hle. exists k. split; [ | reflexivity ].
  split; [ exact Hk | ].
  apply (Z.pow_le_mono_r_iff 2); lia.
Qed.

(** For sizes up to [2^29] the resolution in doubles returns what the exact
    one returns. *)
Lemma meta_and_offset_f64_exact (requested_tile : TileRequest)
    (meta_size tile_size : Z) (mdz : option Z) :
  meta_size <= 2 ^ 29 -> tile_size <= 2 ^ 29 ->
  meta_and_offset_f64 requested_tile meta_size tile_size mdz
  = meta_and_offset requested_tile meta_size tile_size mdz.
Proof.
  intros Hm Ht. unfold meta_and_offset_f64, meta_and_offset.
  destruct (is_power_of_two meta_size) eqn:Em; cbn [negb]; [ | reflexivity ].
  destruct (is_power_of_two tile_size) eqn:Et; cbn [negb]; [ | reflexivity ].
  apply is_power_of_two_spec in Em, Et.
  destruct (power_of_two_small _ Em Hm) as [ a [ Ha -> ] ].
  destruct (power_of_two_small _ Et Ht) as [ b [ Hb -> ] ].
  pose proof (zooms_agree_small a b Ha Hb) as Hagree.
  unfold zooms_agree in Hagree.
  apply andb_prop in Hagree. destruct Hagree as [ Hagree Hint ].
  apply andb_prop in Hagree. destruct Hagree as [ Hlt Hdelta ].
  apply Bool.eqb_prop in Hlt. apply Z.eqb_eq in Hint.
  cbv zeta. rewrite !size_to_zoom_pow2 by lia. rewrite Hlt, Hint.
  destruct (b >? a); [ reflexivity | ].
  cbn [orb] in Hdelta. apply Z.eqb_eq in Hdelta. now rewrite Hdelta.
Qed.

(** *** Claims about [meta_and_offset] *)

(** C1. The round trip of the specification,
    [x = (meta.x << delta) + offset.x] with
    [delta = log2 meta_size - log2 tile_size], fails in the code for the
    metatile size [2^30] and the tile size [2^29]. There [delta] is 1, but the
    two zooms are the doubles [30.0] and [29.000000000000004], whose
    difference truncates to 0: the request [(5, 10, 12)], of zoom at least
    [delta] and with no max detail zoom, comes back as the metatile
    [(5, 10, 12)] with the offset [(0, 0, 0)], and [(10 << 1) + 0] is not
    [10]. *)
Theorem meta_and_offset_f64_round_trip_fails :
  size_to_zoom (2 ^ 30) - size_to_zoom (2 ^ 29) = 1
  /\ int_of_float (PrimFloat.sub (size_to_zoom_f64 (2 ^ 30))
                                 (size_to_zoom_f64 (2 ^ 29))) = 0
  /\ meta_and_offset_f64 (mkTileRequest 5 10 12 "mvt") (2 ^ 30) (2 ^ 29) None
     = Ok (mkTileRequest 5 10 12 "zip", mkTileRequest 0 0 0 "mvt")
  /\ ~ (exists meta offset,
          meta_and_offset_f64 (mkTileRequest 5 10 12 "mvt") (2 ^ 30) (2 ^ 29)
            None = Ok (meta, offset)
          /\ 5 = z meta + z offset
          /\ 10 = Z.shiftl (x meta) 1 + x offset
          /\ 12 = Z.shiftl (y meta) 1 + y offset).
Proof.
  assert (Hrun : meta_and_offset_f64 (mkTileRequest 5 10 12 "mvt") (2 ^ 30)
                   (2 ^ 29) None
                 = Ok (mkTileRequest 5 10 12 "zip",
                       mkTileRequest 0 0 0 "mvt"))
    by (vm_compute; reflexivity).
  split; [ reflexivity | ].
  split; [ vm_compute; reflexivity | ].
  split; [ exact Hrun | ].
  intros [ meta [ offset [ Heq [ _ [ Hx _ ] ] ] ] ].
  rewrite Hrun in Heq. injection Heq as <- <-. discriminate Hx.
Qed.

(** X23. In the code's double arithmetic, for powers of two
    [tile_size <= meta_size <= 2^29], a request with [z >= delta] (where
    [delta = log2 meta_size - log2 tile_size]) to which the max-detail-zoom
    clamp does not apply is recovered from the returned pair:
    [z = meta.z + offset.z], [x = (meta.x << delta) + offset.x] and
    [y = (meta.y << delta) + offset.y]. *)
Theorem meta_and_offset_f64_round_trip (requested_tile : TileRequest)
    (meta_size tile_size : Z) (mdz : option Z) :
  power_of_two meta_size -> power_of_two tile_size -> tile_size <= meta_size ->
  meta_size <= 2 ^ 29 ->
  let delta := size_to_zoom meta_size - size_to_zoom tile_size in
  delta <= z requested_tile ->
  max_detail_applies requested_tile delta mdz = false ->
  exists meta offset,
    meta_and_offset_f64 requested_tile meta_size tile_size mdz
    = Ok (meta, offset)
    /\ z requested_tile = z meta + z offset
    /\ x requested_tile = Z.shiftl (x meta) delta + x offset
    /\ y requested_tile = Z.shiftl (y meta) delta + y offset.
Proof.
  intros Hm Ht Hle Hsmall delta Hz Hclamp.
  rewrite (meta_and_offset_f64_exact _ _ _ mdz Hsmall
             (Z.le_trans _ _ _ Hle Hsmall)).
  pose proof (delta_z_nonneg _ _ Hm Ht Hle) as Hd. fold delta in Hd.
  rewrite (meta_and_offset_valid _ _ _ mdz Hm Ht Hle). cbn zeta. fold delta.
  destruct (Z.ltb_spec (z requested_tile) delta); [ lia | ].
  rewrite (clamp_delta_z_unchanged _ _ _ _ Hclamp).
  rewrite (split_tile_nonneg _ _ Hd).
  eexists _, _. split; [ reflexivity | ]. cbn [z x y]. lia.
Qed.

(** The round trip on the request of the end-to-end scenario. *)
Lemma meta_and_offset_f64_round_trip_witness :
  exists meta offset,
    meta_and_offset_f64 (mkTileRequest 5 10 12 "mvt") 8 1 (Some 12)
      = Ok (meta, offset)
    /\ 5 = z meta + z offset
    /\ 10 = Z.shiftl (x meta) 3 + x offset
    /\ 12 = Z.shiftl (y meta) 3 + y offset.
Proof.
  apply (meta_and_offset_f64_round_trip (mkTileRequest 5 10 12 "mvt") 8 1
           (Some 12)).
  - exists 3. split; [ lia | reflexivity ].
  - exists 0. split; [ lia | reflexivity ].
  - lia.
  - vm_compute. discriminate.
  - vm_compute. discriminate.
  - reflexivity.
Defined.

(** C3. The root pair below the base resolution fails in the code for the
    metatile size [2^32] and the tile size [2^29]. There [delta] is 3 and
    the request [(2, 3, 1)] has [z < delta], but the zooms are the doubles
    [32.0] and [29.000000000000004], whose difference truncates to 2: the
    request is not below the code's [delta_z], and the code returns the root
    metatile with the offset [(2, 3, 1)] instead of [(0, 0, 0)]. *)
Theorem meta_and_offset_f64_below_delta_fails :
  2 < size_to_zoom (2 ^ 32) - size_to_zoom (2 ^ 29)
  /\ int_of_float (PrimFloat.sub (size_to_zoom_f64 (2 ^ 32))
                                 (size_to_zoom_f64 (2 ^ 29))) = 2
  /\ meta_and_offset_f64 (mkTileRequest 2 3 1 "mvt") (2 ^ 32) (2 ^ 29) None
     = Ok (mkTileRequest 0 0 0 "zip", mkTileRequest 2 3 1 "mvt")
  /\ meta_and_offset_f64 (mkTileRequest 2 3 1 "mvt") (2 ^ 32) (2 ^ 29) None
     <> Ok (mkTileRequest 0 0 0 "zip", mkTileRequest 0 0 0 "mvt").
Proof.
  assert (Hrun : meta_and_offset_f64 (mkTileRequest 2 3 1 "mvt") (2 ^ 32)
                   (2 ^ 29) None
                 = Ok (mkTileRequest 0 0 0 "zip",
                       mkTileRequest 2 3 1 "mvt"))
    by (vm_compute; reflexivity).
  split; [ reflexivity | ].
  split; [ vm_compute; reflexivity | ].
  split; [ exact Hrun | ].
  rewrite Hrun. discriminate.
Qed.

(** X24. In the code's double arithmetic, for powers of two
    [tile_size <= meta_size <= 2^29], below the metatile's base resolution
    ([z < delta]) the result is the root metatile [(0, 0, 0, "zip")] with the
    offset [(0, 0, 0, requested format)], whatever the max detail zoom is. *)
Theorem meta_and_offset_f64_below_delta (requested_tile : TileRequest)
    (meta_size tile_size : Z) (mdz : option Z) :
  power_of_two meta_size -> power_of_two tile_size -> tile_size <= meta_size ->
  meta_size <= 2 ^ 29 ->
  z requested_tile < size_to_zoom meta_size - size_to_zoom tile_size ->
  meta_and_offset_f64 requested_tile meta_size tile_size mdz
  = Ok (mkTileRequest 0 0 0 "zip",
        mkTileRequest 0 0 0 (format requested_tile)).
Proof.
  intros Hm Ht Hle Hsmall Hz.
  rewrite (meta_and_offset_f64_exact _ _ _ mdz Hsmall
             (Z.le_trans _ _ _ Hle Hsmall)).
  rewrite (meta_and_offset_valid _ _ _ mdz Hm Ht Hle). cbn zeta.
  destruct (Z.ltb_spec (z requested_tile)
              (size_to_zoom meta_size - size_to_zoom tile_size));
    [ reflexivity | lia ].
Qed.

(** Zoom 2 with metatile size 8 and tile size 1 ([delta] is 3). *)
Lemma meta_and_offset_f64_below_delta_witness :
  meta_and_offset_f64 (mkTileRequest 2 3 1 "json") 8 1 (Some 1)
  = Ok (mkTileRequest 0 0 0 "zip", mkTileRequest 0 0 0 "json").
Proof.
  apply (meta_and_offset_f64_below_delta (mkTileRequest 2 3 1 "json") 8 1
           (Some 1)).
  - exists 3. split; [ lia | reflexivity ].
  - exists 0. split; [ lia | reflexivity ].
  - lia.
  - vm_compute. discriminate.
  - vm_compute. reflexivity.
Defined.





(** X25. In the code's double arithmetic, for powers of two
    [tile_size <= meta_size <= 2^29] the offset coordinate is in range:
    [0 <= offset.z <= delta], with [delta] as the max-detail-zoom branch may
    have updated it, and [0 <= offset.x, offset.y < 2 ^ offset.z]. *)
Theorem meta_and_offset_f64_offset_bounds (requested_tile : TileRequest)
    (meta_size tile_size : Z) (mdz : option Z) :
  power_of_two meta_size -> power_of_two tile_size -> tile_size <= meta_size ->
  meta_size <= 2 ^ 29 ->
  let meta_zoom := size_to_zoom meta_size in
  let delta := meta_zoom - size_to_zoom tile_size in
  let delta' :=
    if z requested_tile <? delta then delta
    else clamp_delta_z requested_tile meta_zoom delta mdz in
  exists meta offset,
    meta_and_offset_f64 requested_tile meta_size tile_size mdz
    = Ok (meta, offset)
    /\ 0 <= z offset <= delta'
    /\ 0 <= x offset < 2 ^ z offset
    /\ 0 <= y offset < 2 ^ z offset.
Proof.
  intros Hm Ht Hle Hsmall meta_zoom delta delta'.
  rewrite (meta_and_offset_f64_exact _ _ _ mdz Hsmall
             (Z.le_trans _ _ _ Hle Hsmall)).
  pose proof (delta_z_nonneg _ _ Hm Ht Hle) as Hd. fold meta_zoom delta in Hd.
  pose proof (size_to_zoom_nonneg meta_size) as Hmz. fold meta_zoom in Hmz.
  rewrite (meta_and_offset_valid _ _ _ mdz Hm Ht Hle). cbn zeta.
  fold meta_zoom delta. unfold delta'.
  destruct (Z.ltb_spec (z requested_tile) delta).
  - eexists _, _. split; [ reflexivity | ]. cbn [z x y].
    change (2 ^ 0) with 1. lia.
  - pose proof (clamp_delta_z_nonneg requested_tile meta_zoom delta mdz Hmz Hd)
      as Hc.
    set (d := clamp_delta_z requested_tile meta_zoom delta mdz) in *.
    rewrite (split_tile_nonneg _ _ Hc).
    eexists _, _. split; [ reflexivity | ]. cbn [z x y].
    replace (z requested_tile - (z requested_tile - d)) with d by lia.
    rewrite !shift_remainder by assumption.
    assert (0 < 2 ^ d) by (apply Z.pow_pos_nonneg; lia).
    pose proof (Z.mod_pos_bound (x requested_tile) (2 ^ d)).
    pose proof (Z.mod_pos_bound (y requested_tile) (2 ^ d)).
    lia.
Qed.

(** The bounds on a clamped request. *)
Lemma meta_and_offset_f64_offset_bounds_witness :
  exists meta offset,
    meta_and_offset_f64 (mkTileRequest 16 40003 50001 "mvt") 8 2 (Some 12)
      = Ok (meta, offset)
    /\ 0 <= z offset <= 3
    /\ 0 <= x offset < 2 ^ z offset
    /\ 0 <= y offset < 2 ^ z offset.
Proof.
  apply (meta_and_offset_f64_offset_bounds
           (mkTileRequest 16 40003 50001 "mvt") 8 2 (Some 12)).
  - exists 3. split; [ lia | reflexivity ].
  - exists 1. split; [ lia | reflexivity ].
  - lia.
  - vm_compute. discriminate.
Defined.

(** C9. [meta_and_offset] raises the configuration error ([ValueError]), and
    returns no pair, whenever the metatile size is not a power of two, or the
    tile size is not a power of two, or the tile size exceeds the metatile
    size; for all other sizes it returns a pair. *)
Theorem meta_and_offset_raises_iff_invalid_sizes (requested_tile : TileRequest)
    (meta_size tile_size : Z) (mdz : option Z) :
  (~ power_of_two meta_size \/ ~ power_of_two tile_size
   \/ meta_size < tile_size ->
   exists msg,
     meta_and_offset requested_tile meta_size tile_size mdz
     = Raise (ValueError msg))
  /\ (power_of_two meta_size -> power_of_two tile_size ->
      tile_size <= meta_size ->
      exists meta offset,
        meta_and_offset requested_tile meta_size tile_size mdz
        = Ok (meta, offset)).
Proof.
  split.
  - intros Hbad. unfold meta_and_offset.
    destruct (is_power_of_two meta_size) eqn:Em; cbn [negb];
      [ | eexists; reflexivity ].
    destruct (is_power_of_two tile_size) eqn:Et; cbn [negb];
      [ | eexists; reflexivity ].
    apply is_power_of_two_spec in Em, Et.
    destruct Hbad as [Hbad | [Hbad | Hlt]]; [ contradiction | contradiction | ].
    pose proof (size_to_zoom_le _ _ Et Em) as Hiff.
    destruct (Z.gtb_spec (size_to_zoom tile_size) (size_to_zoom meta_size))
      as [ Hgt | Hzoom ]; [ eexists; reflexivity | ].
    apply Hiff in Hzoom. lia.
  - intros Hm Ht Hle.
    rewrite (meta_and_offset_valid _ _ _ mdz Hm Ht Hle). cbn zeta.
    destruct (Z.ltb_spec (z requested_tile)
                (size_to_zoom meta_size - size_to_zoom tile_size)).
    + eexists _, _. reflexivity.
    + rewrite split_tile_nonneg.
      * eexists _, _. reflexivity.
      * apply clamp_delta_z_nonneg.
        -- apply size_to_zoom_nonneg.
        -- now apply delta_z_nonneg.
Qed.

(** Metatile size 6 raises; metatile size 8 with tile size 1 does not. *)
Lemma meta_and_offset_raises_iff_invalid_sizes_witness :
  (exists msg,
     meta_and_offset (mkTileRequest 5 10 12 "mvt") 6 1 None
     = Raise (ValueError msg))
  /\ (exists meta offset,
        meta_and_offset (mkTileRequest 5 10 12 "mvt") 8 1 None
        = Ok (meta, offset)).
Proof.
  split.
  - apply (proj1 (meta_and_offset_raises_iff_invalid_sizes
                    (mkTileRequest 5 10 12 "mvt") 6 1 None)).
    left. intros H. apply is_power_of_two_spec in H. discriminate H.
  - apply (proj2 (meta_and_offset_raises_iff_invalid_sizes
                    (mkTileRequest 5 10 12 "mvt") 8 1 None)).
    + exists 3. split; [ lia | reflexivity ].
    + exists 0. split; [ lia | reflexivity ].
    + lia.
Defined.

(** C10. A max detail zoom of [0], like [None], never triggers the clamp: the
    function then behaves exactly as with no max detail zoom. *)
Theorem max_detail_zoom_zero_is_unset (requested_tile : TileRequest)
    (meta_size tile_size : Z) :
  (forall delta_z,
     max_detail_applies requested_tile delta_z (Some 0) = false
     /\ max_detail_applies requested_tile delta_z None = false)
  /\ meta_and_offset requested_tile meta_size tile_size (Some 0)
     = meta_and_offset requested_tile meta_size tile_size None.
Proof.
  split.
  - intros delta_z. split; reflexivity.
  - reflexivity.
Qed.

(** ** Properties of the key building *)

Example md5_empty :
  MD5.hexdigest EmptyString = "d41d8cd98f00b204e9800998ecf8427e".
Proof. vm_compute. reflexivity. Qed.

Example md5_abc : MD5.hexdigest "abc" = "900150983cd24fb0d6963f7d28e17f72".
Proof. vm_compute. reflexivity. Qed.

Example md5_two_blocks :
  MD5.hexdigest
    ("1234567890123456789012345678901234567890"
     +:+ "1234567890123456789012345678901234567890")
  = "57edf4a22be3c955ac49da2e2107b67a".
Proof. vm_compute. reflexivity. Qed.

Example compute_key_scenario :
  compute_key (Some "pre") "all" (mkTileRequest 2 1 1 "zip") true
  = "pre/763c0/all/2/1/1.zip".
Proof. vm_compute. reflexivity. Qed.

Lemma le_bytes_length (n : nat) (v : Z) : length (MD5.le_bytes n v) = n.
Proof. unfold MD5.le_bytes. now rewrite length_map, length_seq. Qed.

Lemma digest_length (msg : list Z) : length (MD5.digest msg) = 16%nat.
Proof.
  unfold MD5.digest. destruct (MD5.digest_state msg) as [[[a b] c] d].
  rewrite !length_app, !le_bytes_length. reflexivity.
Qed.

Lemma append_cons (c : ascii) (s t : string) :
  String c s +:+ t = String c (s +:+ t).
Proof. reflexivity. Qed.

Lemma append_empty (t : string) : EmptyString +:+ t = t.
Proof. reflexivity. Qed.

Lemma hex_length (bs : list Z) :
  String.length (MD5.hex bs) = (2 * length bs)%nat.
Proof.
  induction bs as [ | b rest IH ]; [ reflexivity | ].
  cbn [MD5.hex length]. unfold MD5.hex_byte.
  rewrite !append_cons, append_empty. cbn [String.length]. rewrite IH. lia.
Qed.

Lemma hex_digit_is_hex (n : Z) : is_hex_char (MD5.hex_digit n) = true.
Proof.
  unfold MD5.hex_digit. generalize (Z.to_nat n) as i. intros i.
  do 16 (destruct i as [ | i ]; [ reflexivity | ]).
  destruct i; reflexivity.
Qed.

Lemma hex_is_hex (bs : list Z) : is_hex_string (MD5.hex bs) = true.
Proof.
  induction bs as [ | b rest IH ]; [ reflexivity | ].
  cbn [MD5.hex]. unfold MD5.hex_byte.
  rewrite !append_cons, append_empty. cbn [is_hex_string].
  now rewrite !hex_digit_is_hex, IH.
Qed.

Lemma hexdigest_length (s : string) : String.length (MD5.hexdigest s) = 32%nat.
Proof. unfold MD5.hexdigest. now rewrite hex_length, digest_length. Qed.

Lemma hexdigest_is_hex (s : string) : is_hex_string (MD5.hexdigest s) = true.
Proof. apply hex_is_hex. Qed.

(** [s[:n]] of a string with at least [n] characters has [n] characters. *)
Lemma slice_length (n : nat) (s : string) :
  (n <= String.length s)%nat -> String.length (substring 0 n s) = n.
Proof.
  revert s. induction n as [ | n IH ]; intros s Hn.
  - destruct s; reflexivity.
  - destruct s as [ | c s ]; cbn [String.length] in Hn; [ lia | ].
    cbn [substring String.length]. rewrite IH; [ reflexivity | lia ].
Qed.

Lemma slice_is_hex (n : nat) (s : string) :
  is_hex_string s = true -> is_hex_string (substring 0 n s) = true.
Proof.
  revert s. induction n as [ | n IH ]; intros s Hs.
  - destruct s; reflexivity.
  - destruct s as [ | c s ]; [ reflexivity | ].
    cbn [is_hex_string] in Hs. apply andb_prop in Hs as [Hc Hs].
    cbn [substring is_hex_string]. now rewrite Hc, IH.
Qed.

Lemma tile_path_specified (layer : string) (meta_tile : TileRequest) :
  tile_path layer meta_tile = "/" +:+ specified_path layer meta_tile.
Proof. reflexivity. Qed.

Lemma append_slash (s : string) : "/" +:+ s = String "/" s.
Proof. reflexivity. Qed.

(** C8, as the specification states it, fails: the digest is not taken of
    the path ["<layer>/<zoom>/<x>/<y>.<format>"] itself. For the root metatile
    of layer ["all"] the code answers ["638d1/all/0/0/0.zip"], and the digest
    of ["all/0/0/0.zip"] starts with ["fce6b"]. *)
Lemma compute_key_hash_not_of_bare_path :
  compute_key None "all" (mkTileRequest 0 0 0 "zip") true
  = "638d1/all/0/0/0.zip"
  /\ specified_key None "all" (mkTileRequest 0 0 0 "zip") true
     = "fce6b/all/0/0/0.zip"
  /\ compute_key None "all" (mkTileRequest 0 0 0 "zip") true
     <> specified_key None "all" (mkTileRequest 0 0 0 "zip") true.
Proof.
  split; [ vm_compute; reflexivity | ].
  split; [ vm_compute; reflexivity | ].
  vm_compute. discriminate.
Qed.

(** C8, amended. [compute_key] returns ["<layer>/<zoom>/<x>/<y>.<format>"];
    when a hash is asked for it puts before it, as a segment of its own, the
    first five characters, all hexadecimal digits, of the MD5 hex digest of
    that path preceded by the separator (["/<layer>/<zoom>/<x>/<y>.<format>"]);
    a non-empty prefix becomes the leading segment and an empty or absent one
    adds nothing; the result has no leading separator of the code's own; and
    the key is a function of the four arguments. *)
Theorem compute_key_layout (prefix : option string) (layer : string)
    (meta_tile : TileRequest) (include_hash : bool) :
  let path := specified_path layer meta_tile in
  let h := substring 0 5 (MD5.hexdigest ("/" +:+ path)) in
  let hashed := if include_hash then h +:+ "/" +:+ path else path in
  compute_key prefix layer meta_tile include_hash
  = match prefix with
    | Some p =>
        if String.eqb p EmptyString then hashed else p +:+ "/" +:+ hashed
    | None => hashed
    end
  /\ String.length h = 5%nat
  /\ is_hex_string h = true.
Proof.
  intros path h hashed. split; [ | split ].
  - unfold compute_key. rewrite tile_path_specified. fold path. fold h.
    assert (Hk : str_tail (if include_hash
                           then "/" +:+ h +:+ "/" +:+ path
                           else "/" +:+ path) = hashed).
    { unfold hashed. destruct include_hash; reflexivity. }
    destruct prefix as [ p | ]; [ | exact Hk ].
    unfold truthy_str.
    destruct (String.eqb p EmptyString); cbn [negb]; [ exact Hk | ].
    rewrite append_slash. cbn [str_tail]. f_equal.
    unfold hashed. destruct include_hash; reflexivity.
  - apply slice_length. rewrite hexdigest_length. lia.
  - apply slice_is_hex, hexdigest_is_hex.
Qed.

(** ** Properties of the fetch pipeline *)

Example retrieve_tile_scenario :
  fst (retrieve_tile (sample_env sample_store) (mkTileRequest 2 1 1 "zip")
         (mkTileRequest 3 2 4 "mvt") (mkCacheInfo None None) empty_state)
  = Ok (mkStorageResponse [x07; x08]
          (mkCacheInfo (Some 1541289600) (Some "5d41402a"))).
Proof. vm_compute. reflexivity. Qed.

Lemma cache_get_miss (c : LFUCache) (k : TileRequest) :
  cache_lookup c k = None -> cache_get c k = (None, c).
Proof. intros H. unfold cache_get. now rewrite H. Qed.

Lemma cache_get_hit (c : LFUCache) (k : TileRequest) (v : StorageResponse) :
  cache_lookup c k = Some v ->
  cache_get c k
  = (Some v, mkLFUCache (maxsize c) (currsize c)
                        (map (use_entry k) (entries c))).
Proof. intros H. unfold cache_get. now rewrite H. Qed.


Lemma retrieve_tile_fetch_raises (env : Env) (meta offset : TileRequest)
    (cache_info : CacheInfo) (st st' : AppState) (e : exn) :
  metatile_fetch env meta cache_info st = (Raise e, st') ->
  retrieve_tile env meta offset cache_info st = (Raise e, st').
Proof. intros H. unfold retrieve_tile. now rewrite H. Qed.

Lemma retrieve_tile_fetch_ok (env : Env) (meta offset : TileRequest)
    (cache_info_ : CacheInfo) (st st' : AppState)
    (metatile : StorageResponse) :
  metatile_fetch env meta cache_info_ st = (Ok metatile, st') ->
  retrieve_tile env meta offset cache_info_ st
  = (match extract_tile env (data metatile) offset with
     | Ok tile_data =>
         Ok (mkStorageResponse tile_data
               (mkCacheInfo (last_modified (cache_info metatile))
                            (etag (cache_info metatile))))
     | Raise e => Raise e
     end, st').
Proof.
  intros H. unfold retrieve_tile. rewrite H.
  destruct (extract_tile env (data metatile) offset); reflexivity.
Qed.



(** C6. When the metatile is in the cache, the fetch returns the cached
    object as it is, whatever the caller's freshness hints are, and the object
    store is not called: the list of calls is unchanged and the outcome does
    not depend on the hints or on what the store would answer. *)
Theorem metatile_fetch_cache_hit (env : Env) (meta : TileRequest)
    (st : AppState) (cached : StorageResponse) :
  cache_lookup (metatile_lfu st) meta = Some cached ->
  (forall cache_info,
     exists st',
       metatile_fetch env meta cache_info st = (Ok cached, st')
       /\ s3_calls st' = s3_calls st)
  /\ (forall env' cache_info cache_info',
        metatile_fetch env' meta cache_info' st
        = metatile_fetch env meta cache_info st).
Proof.
  intros Hhit. split.
  - intros cache_info. unfold metatile_fetch.
    rewrite (cache_get_hit _ _ _ Hhit). eexists. split; reflexivity.
  - intros env' cache_info cache_info'. unfold metatile_fetch.
    rewrite (cache_get_hit _ _ _ Hhit). reflexivity.
Qed.

(** A warm cache in front of a store that would answer ["304"]. *)
Lemma metatile_fetch_cache_hit_witness :
  (forall cache_info,
     exists st',
       metatile_fetch (sample_env (fun _ => ClientError (Some "304")))
         (mkTileRequest 2 1 1 "zip") cache_info warm_state
       = (Ok (mkStorageResponse [x50; x4b]
                (mkCacheInfo (Some 1541289600) (Some "5d41402a"))), st')
       /\ s3_calls st' = s3_calls warm_state)
  /\ (forall env' cache_info cache_info',
        metatile_fetch env' (mkTileRequest 2 1 1 "zip") cache_info' warm_state
        = metatile_fetch (sample_env (fun _ => ClientError (Some "304")))
            (mkTileRequest 2 1 1 "zip") cache_info warm_state).
Proof.
  apply (metatile_fetch_cache_hit
           (sample_env (fun _ => ClientError (Some "304")))
           (mkTileRequest 2 1 1 "zip") warm_state).
  vm_compute. reflexivity.
Defined.

(** C7. [retrieve_tile] succeeds exactly when the fetch returns a metatile
    whose archive has the entry named
    ["<offset.z>/<offset.x>/<offset.y>.<offset.format>"]; it then returns the
    bytes of that entry with the metatile's own [last_modified] and [etag]. *)
Theorem retrieve_tile_returns_entry (env : Env) (meta offset : TileRequest)
    (cache_info_ : CacheInfo) (st st' : AppState) (tile : StorageResponse) :
  offset_key offset
  = str_int (z offset) +:+ "/" +:+ str_int (x offset) +:+ "/"
      +:+ str_int (y offset) +:+ "." +:+ format offset
  /\ (retrieve_tile env meta offset cache_info_ st = (Ok tile, st') <->
      exists metatile archive,
        metatile_fetch env meta cache_info_ st = (Ok metatile, st')
        /\ ZipFile env (data metatile) = Some archive
        /\ archive !! offset_key offset = Some (data tile)
        /\ last_modified (cache_info tile)
           = last_modified (cache_info metatile)
        /\ etag (cache_info tile) = etag (cache_info metatile)).
Proof.
  split; [ reflexivity | ]. split.
  - intros Hok. unfold retrieve_tile in Hok.
    destruct (metatile_fetch env meta cache_info_ st) as [fetched st1] eqn:Hf.
    destruct fetched as [ metatile | e ]; [ | discriminate Hok ].
    unfold extract_tile in Hok.
    destruct (ZipFile env (data metatile)) as [ archive | ] eqn:Hzip;
      [ | discriminate Hok ].
    destruct (archive !! offset_key offset) as [ entry | ] eqn:Hentry;
      [ | discriminate Hok ].
    injection Hok as <- <-.
    exists metatile, archive.
    split; [ reflexivity | ]. split; [ exact Hzip | ].
    split; [ exact Hentry | ]. split; reflexivity.
  - intros (metatile & archive & Hf & Hzip & Hentry & Hlm & Het).
    rewrite (retrieve_tile_fetch_ok _ _ _ _ _ _ _ Hf).
    unfold extract_tile. rewrite Hzip, Hentry.
    destruct tile as [ d [ lm et ] ]. cbn in Hlm, Het |- *.
    now rewrite Hlm, Het.
Qed.

(** The successful retrieval of [3/2/4.mvt] from the sample store. *)
Lemma retrieve_tile_returns_entry_witness :
  exists metatile archive,
    metatile_fetch (sample_env sample_store) (mkTileRequest 2 1 1 "zip")
      (mkCacheInfo None None) empty_state = (Ok metatile, warm_state)
    /\ ZipFile (sample_env sample_store) (data metatile) = Some archive
    /\ archive !! "3/2/4.mvt" = Some [x07; x08]
    /\ Some 1541289600 = last_modified (cache_info metatile)
    /\ Some "5d41402a" = etag (cache_info metatile).
Proof.
  apply (proj1 (proj2 (retrieve_tile_returns_entry (sample_env sample_store)
                         (mkTileRequest 2 1 1 "zip")
                         (mkTileRequest 3 2 4 "mvt")
                         (mkCacheInfo None None) empty_state warm_state
                         (mkStorageResponse [x07; x08]
                            (mkCacheInfo (Some 1541289600)
                                         (Some "5d41402a")))))).
  vm_compute. reflexivity.
Defined.

(** ** Further properties of the address resolution *)

(** The clamp moves [delta_z] up only, and never past the metatile's zoom. *)
Lemma clamp_delta_z_bounds (requested_tile : TileRequest)
    (meta_zoom delta_z : Z) (mdz : option Z) :
  delta_z <= meta_zoom ->
  delta_z <= clamp_delta_z requested_tile meta_zoom delta_z mdz <= meta_zoom.
Proof.
  intros Hle. unfold clamp_delta_z, max_detail_applies.
  destruct mdz as [m | ]; [ | lia ].
  destruct (truthy_int (Some m)); cbn [andb]; [ | lia ].
  destruct (Z.gtb_spec (z requested_tile - delta_z) m); lia.
Qed.

(** The result in the [else] branch, in closed form. *)
Lemma meta_and_offset_at_depth (requested_tile : TileRequest)
    (meta_size tile_size : Z) (mdz : option Z) :
  power_of_two meta_size -> power_of_two tile_size -> tile_size <= meta_size ->
  size_to_zoom meta_size - size_to_zoom tile_size <= z requested_tile ->
  forall d,
    d = clamp_delta_z requested_tile (size_to_zoom meta_size)
          (size_to_zoom meta_size - size_to_zoom tile_size) mdz ->
    meta_and_offset requested_tile meta_size tile_size mdz
    = Ok (mkTileRequest (z requested_tile - d)
                        (Z.shiftr (x requested_tile) d)
                        (Z.shiftr (y requested_tile) d) "zip",
          mkTileRequest d
                        (x requested_tile mod 2 ^ d)
                        (y requested_tile mod 2 ^ d)
                        (format requested_tile)).
Proof.
  intros Hm Ht Hle Hz d Hd.
  pose proof (delta_z_nonneg _ _ Hm Ht Hle) as Hdelta.
  pose proof (clamp_delta_z_bounds requested_tile (size_to_zoom meta_size)
                (size_to_zoom meta_size - size_to_zoom tile_size) mdz
                ltac:(pose proof (size_to_zoom_nonneg tile_size); lia)) as Hb.
  rewrite <- Hd in Hb.
  rewrite (meta_and_offset_valid _ _ _ mdz Hm Ht Hle). cbn zeta.
  destruct (Z.ltb_spec (z requested_tile)
              (size_to_zoom meta_size - size_to_zoom tile_size)); [ lia | ].
  rewrite <- Hd. rewrite split_tile_nonneg by lia.
  rewrite !shift_remainder by lia.
  replace (z requested_tile - (z requested_tile - d)) with d by lia.
  reflexivity.
Qed.

(** X1. The check accepts exactly the powers of two: [is_power_of_two n] is
    truthy iff [n = 2 ^ k] for some [k >= 0]. Zero, for which the code
    returns the number itself, and the negative integers are rejected. *)
Theorem is_power_of_two_exact (n : Z) :
  (is_power_of_two n = true <-> exists k, 0 <= k /\ n = 2 ^ k)
  /\ (n <= 0 -> is_power_of_two n = false).
Proof.
  split; [ exact (is_power_of_two_spec n) | ].
  intros Hn. destruct (is_power_of_two n) eqn:E; [ | reflexivity ].
  apply is_power_of_two_inv in E as (k & Hk & E).
  assert (0 < 2 ^ k) by (apply Z.pow_pos_nonneg; lia). lia.
Qed.

(** X2. Whatever the sizes and the max detail zoom are, a returned pair has
    a metatile of format ["zip"] and an offset that keeps the requested
    format. *)
Theorem meta_and_offset_formats (requested_tile : TileRequest)
    (meta_size tile_size : Z) (mdz : option Z) (meta offset : TileRequest) :
  meta_and_offset requested_tile meta_size tile_size mdz = Ok (meta, offset) ->
  format meta = "zip" /\ format offset = format requested_tile.
Proof.
  unfold meta_and_offset.
  destruct (negb (is_power_of_two meta_size)); [ discriminate | ].
  destruct (negb (is_power_of_two tile_size)); [ discriminate | ].
  destruct (size_to_zoom tile_size >? size_to_zoom meta_size);
    [ discriminate | ].
  destruct (z requested_tile <? _).
  - intros [= <- <-]. split; reflexivity.
  - unfold split_tile, py_rshift, py_lshift.
    destruct (_ <? 0); cbn [rbind]; [ discriminate | ].
    intros [= <- <-]. split; reflexivity.
Qed.

Lemma meta_and_offset_formats_witness :
  format (mkTileRequest 2 1 1 "zip") = "zip"
  /\ format (mkTileRequest 3 2 4 "mvt") = format (mkTileRequest 5 10 12 "mvt").
Proof.
  apply (meta_and_offset_formats (mkTileRequest 5 10 12 "mvt") 8 1 (Some 12)).
  reflexivity.
Defined.

(** X3. A request inside the tile pyramid ([0 <= x, y < 2 ^ z]) resolves to a
    metatile inside the pyramid, at a zoom between 0 and the requested one,
    provided the max detail zoom, when set, is not negative. *)
Theorem meta_and_offset_meta_in_pyramid (requested_tile : TileRequest)
    (meta_size tile_size : Z) (mdz : option Z) :
  power_of_two meta_size -> power_of_two tile_size -> tile_size <= meta_size ->
  (forall m, mdz = Some m -> 0 <= m) ->
  0 <= z requested_tile ->
  0 <= x requested_tile < 2 ^ z requested_tile ->
  0 <= y requested_tile < 2 ^ z requested_tile ->
  exists meta offset,
    meta_and_offset requested_tile meta_size tile_size mdz = Ok (meta, offset)
    /\ 0 <= z meta <= z requested_tile
    /\ 0 <= x meta < 2 ^ z meta
    /\ 0 <= y meta < 2 ^ z meta.
Proof.
  intros Hm Ht Hle Hmdz Hz Hx Hy.
  pose proof (delta_z_nonneg _ _ Hm Ht Hle) as Hdelta.
  destruct (Z.lt_ge_cases (z requested_tile)
              (size_to_zoom meta_size - size_to_zoom tile_size)) as [Hlt | Hge].
  - rewrite (meta_and_offset_valid _ _ _ mdz Hm Ht Hle). cbn zeta.
    destruct (Z.ltb_spec (z requested_tile)
                (size_to_zoom meta_size - size_to_zoom tile_size)); [ | lia ].
    eexists _, _. split; [ reflexivity | ]. cbn [z x y].
    change (2 ^ 0) with 1. lia.
  - rewrite (meta_and_offset_at_depth _ _ _ mdz Hm Ht Hle Hge _ eq_refl).
    set (d := clamp_delta_z _ _ _ _).
    assert (Hd : 0 <= d <= z requested_tile).
    { pose proof (clamp_delta_z_bounds requested_tile (size_to_zoom meta_size)
                    (size_to_zoom meta_size - size_to_zoom tile_size) mdz
                    ltac:(pose proof (size_to_zoom_nonneg tile_size); lia))
        as Hb.
      fold d in Hb. split; [ lia | ].
      subst d. unfold clamp_delta_z, max_detail_applies.
      destruct mdz as [m | ]; [ | lia ].
      specialize (Hmdz m eq_refl).
      destruct (truthy_int (Some m)); cbn [andb]; [ | lia ].
      destruct (Z.gtb_spec
                  (z requested_tile
                   - (size_to_zoom meta_size - size_to_zoom tile_size)) m);
        lia. }
    eexists _, _. split; [ reflexivity | ]. cbn [z x y].
    rewrite !Z.shiftr_div_pow2 by lia.
    assert (Hpow : 0 < 2 ^ d) by (apply Z.pow_pos_nonneg; lia).
    assert (Hsplit : 2 ^ z requested_tile = 2 ^ d * 2 ^ (z requested_tile - d)).
    { rewrite <- Z.pow_add_r by lia. f_equal. lia. }
    split; [ lia | ].
    split; (split; [ apply Z.div_pos; lia
                   | apply Z.div_lt_upper_bound; lia ]).
Qed.

Lemma meta_and_offset_meta_in_pyramid_witness :
  exists meta offset,
    meta_and_offset (mkTileRequest 16 40003 50001 "mvt") 8 2 (Some 12)
      = Ok (meta, offset)
    /\ 0 <= z meta <= 16
    /\ 0 <= x meta < 2 ^ z meta
    /\ 0 <= y meta < 2 ^ z meta.
Proof.
  apply (meta_and_offset_meta_in_pyramid (mkTileRequest 16 40003 50001 "mvt")
           8 2 (Some 12)).
  - exists 3. split; [ lia | reflexivity ].
  - exists 1. split; [ lia | reflexivity ].
  - lia.
  - intros m [= <-]. lia.
  - cbn. lia.
  - cbn. lia.
  - cbn. lia.
Defined.

(** X4. At or above the base resolution the request is recovered from the
    returned pair alone, with the offset's zoom as the shift; this holds
    whether or not the max detail zoom changed [delta_z]. *)
Theorem meta_and_offset_recovers_request (requested_tile : TileRequest)
    (meta_size tile_size : Z) (mdz : option Z) :
  power_of_two meta_size -> power_of_two tile_size -> tile_size <= meta_size ->
  size_to_zoom meta_size - size_to_zoom tile_size <= z requested_tile ->
  exists meta offset,
    meta_and_offset requested_tile meta_size tile_size mdz = Ok (meta, offset)
    /\ requested_tile
       = mkTileRequest (z meta + z offset)
                       (Z.shiftl (x meta) (z offset) + x offset)
                       (Z.shiftl (y meta) (z offset) + y offset)
                       (format offset).
Proof.
  intros Hm Ht Hle Hge.
  pose proof (delta_z_nonneg _ _ Hm Ht Hle) as Hdelta.
  rewrite (meta_and_offset_at_depth _ _ _ mdz Hm Ht Hle Hge _ eq_refl).
  pose proof (clamp_delta_z_bounds requested_tile (size_to_zoom meta_size)
                (size_to_zoom meta_size - size_to_zoom tile_size) mdz
                ltac:(pose proof (size_to_zoom_nonneg tile_size); lia)) as Hb.
  set (d := clamp_delta_z _ _ _ _) in *.
  eexists _, _. split; [ reflexivity | ]. cbn [z x y format].
  pose proof (shift_remainder (x requested_tile) d ltac:(lia)) as Hx.
  pose proof (shift_remainder (y requested_tile) d ltac:(lia)) as Hy.
  destruct requested_tile as [rz rx ry rf]. cbn [z x y format] in *.
  f_equal; lia.
Qed.

Lemma meta_and_offset_recovers_request_witness :
  exists meta offset,
    meta_and_offset (mkTileRequest 16 40003 50001 "mvt") 8 2 (Some 12)
      = Ok (meta, offset)
    /\ mkTileRequest 16 40003 50001 "mvt"
       = mkTileRequest (z meta + z offset)
                       (Z.shiftl (x meta) (z offset) + x offset)
                       (Z.shiftl (y meta) (z offset) + y offset)
                       (format offset).
Proof.
  apply (meta_and_offset_recovers_request
           (mkTileRequest 16 40003 50001 "mvt") 8 2 (Some 12)).
  - exists 3. split; [ lia | reflexivity ].
  - exists 1. split; [ lia | reflexivity ].
  - lia.
  - vm_compute. discriminate.
Defined.

(** X5. At or above the base resolution two different requests never resolve
    to the same metatile and the same offset. *)
Theorem meta_and_offset_injective (r1 r2 : TileRequest)
    (meta_size tile_size : Z) (mdz : option Z) :
  power_of_two meta_size -> power_of_two tile_size -> tile_size <= meta_size ->
  size_to_zoom meta_size - size_to_zoom tile_size <= z r1 ->
  size_to_zoom meta_size - size_to_zoom tile_size <= z r2 ->
  r1 <> r2 ->
  meta_and_offset r1 meta_size tile_size mdz
  <> meta_and_offset r2 meta_size tile_size mdz.
Proof.
  intros Hm Ht Hle Hz1 Hz2 Hne. intros Heq. apply Hne. revert Heq.
  pose proof (delta_z_nonneg _ _ Hm Ht Hle) as Hdelta.
  rewrite (meta_and_offset_at_depth _ _ _ mdz Hm Ht Hle Hz1 _ eq_refl).
  rewrite (meta_and_offset_at_depth _ _ _ mdz Hm Ht Hle Hz2 _ eq_refl).
  pose proof (clamp_delta_z_bounds r1 (size_to_zoom meta_size)
                (size_to_zoom meta_size - size_to_zoom tile_size) mdz
                ltac:(pose proof (size_to_zoom_nonneg tile_size); lia)) as Hb.
  set (d1 := clamp_delta_z r1 _ _ _) in *.
  set (d2 := clamp_delta_z r2 _ _ _) in *.
  intros [= Hz Hx Hy Hd Hox Hoy Hf]. rewrite <- Hd in *.
  pose proof (shift_remainder (x r1) d1 ltac:(lia)) as Hx1.
  pose proof (shift_remainder (x r2) d1 ltac:(lia)) as Hx2.
  pose proof (shift_remainder (y r1) d1 ltac:(lia)) as Hy1.
  pose proof (shift_remainder (y r2) d1 ltac:(lia)) as Hy2.
  rewrite Hx, Hox in Hx1. rewrite Hy, Hoy in Hy1.
  destruct r1 as [z1 x1 y1 f1], r2 as [z2 x2 y2 f2].
  cbn [z x y format] in *.
  f_equal; [ lia | lia | lia | exact Hf ].
Qed.

Lemma meta_and_offset_injective_witness :
  meta_and_offset (mkTileRequest 5 10 12 "mvt") 8 1 (Some 12)
  <> meta_and_offset (mkTileRequest 5 10 13 "mvt") 8 1 (Some 12).
Proof.
  apply (meta_and_offset_injective (mkTileRequest 5 10 12 "mvt")
           (mkTileRequest 5 10 13 "mvt") 8 1 (Some 12)).
  - exists 3. split; [ lia | reflexivity ].
  - exists 0. split; [ lia | reflexivity ].
  - lia.
  - vm_compute. discriminate.
  - vm_compute. discriminate.
  - discriminate.
Defined.

(** X6. With tile size 1 the max detail zoom plays no part: the outcome, a
    pair or an error, is the one obtained with no max detail zoom. *)
Theorem meta_and_offset_unit_tile_ignores_max_detail
    (requested_tile : TileRequest) (meta_size : Z) (mdz : option Z) :
  meta_and_offset requested_tile meta_size 1 mdz
  = meta_and_offset requested_tile meta_size 1 None.
Proof.
  unfold meta_and_offset.
  destruct (negb (is_power_of_two meta_size)); [ reflexivity | ].
  destruct (negb (is_power_of_two 1)); [ reflexivity | ].
  destruct (size_to_zoom 1 >? size_to_zoom meta_size); [ reflexivity | ].
  change (size_to_zoom 1) with 0.
  destruct (z requested_tile <? size_to_zoom meta_size - 0); [ reflexivity | ].
  f_equal. unfold clamp_delta_z, max_detail_applies.
  destruct mdz as [m | ]; [ | reflexivity ].
  destruct (truthy_int (Some m)); cbn [andb]; [ | reflexivity ].
  destruct (Z.gtb_spec (z requested_tile - (size_to_zoom meta_size - 0)) m);
    lia.
Qed.



(** ** Further properties of the fetch pipeline *)

(** Counting a use changes neither the key nor the value of an entry. *)
Lemma find_use_entry (k k' : TileRequest) (es : list CacheEntry) :
  option_map entry_value (find (entry_has_key k') (map (use_entry k) es))
  = option_map entry_value (find (entry_has_key k') es).
Proof.
  induction es as [ | e es IH ]; [ reflexivity | ].
  assert (Hkey : entry_has_key k' (use_entry k e) = entry_has_key k' e)
    by (unfold use_entry; destruct (entry_has_key k e); reflexivity).
  assert (Hval : entry_value (use_entry k e) = entry_value e)
    by (unfold use_entry; destruct (entry_has_key k e); reflexivity).
  cbn [map find]. rewrite Hkey.
  destruct (entry_has_key k' e); [ | exact IH ].
  cbn [option_map]. now rewrite Hval.
Qed.

Lemma cache_lookup_after_get (c : LFUCache) (k k' : TileRequest) :
  cache_lookup (snd (cache_get c k)) k' = cache_lookup c k'.
Proof.
  unfold cache_get. destruct (cache_lookup c k); [ | reflexivity ].
  cbn [snd]. unfold cache_lookup, cache_find. cbn [entries].
  apply find_use_entry.
Qed.

Lemma find_replaced (k : TileRequest) (v : StorageResponse) (size : Z)
    (es : list CacheEntry) (e : CacheEntry) :
  find (entry_has_key k) es = Some e ->
  find (entry_has_key k)
       (map (fun e' => if entry_has_key k e'
                       then mkCacheEntry k v size (entry_uses e' + 1)
                       else e') es)
  = Some (mkCacheEntry k v size (entry_uses e + 1)).
Proof.
  induction es as [ | a es IH ]; [ discriminate | ].
  cbn [map find]. destruct (entry_has_key k a) eqn:Ha.
  - intros [= ->]. unfold entry_has_key. cbn [entry_key].
    now rewrite bool_decide_eq_true_2.
  - rewrite Ha. exact IH.
Qed.

Lemma find_appended (k : TileRequest) (es : list CacheEntry)
    (e : CacheEntry) :
  find (entry_has_key k) es = None -> entry_key e = k ->
  find (entry_has_key k) (es ++ [e]) = Some e.
Proof.
  intros Hnone Hkey. induction es as [ | a es IH ].
  - cbn. unfold entry_has_key. now rewrite bool_decide_eq_true_2.
  - cbn [app find] in *. destruct (entry_has_key k a); [ discriminate | ].
    now apply IH.
Qed.

(** What is stored under a key is what a lookup of that key gives. *)
Lemma cache_setitem_lookup (env : Env) (c c' : LFUCache) (k : TileRequest)
    (v : StorageResponse) :
  cache_setitem env c k v = Ok c' -> cache_lookup c' k = Some v.
Proof.
  unfold cache_setitem.
  destruct (sys_getsizeof env (data v) >? maxsize c); [ discriminate | ].
  cbv zeta.
  match goal with
  | |- match cache_find ?c0 k with _ => _ end = _ -> _ => set (c1 := c0)
  end.
  destruct (cache_find c1 k) as [ e | ] eqn:Hfind; intros [= <-];
    unfold cache_lookup, cache_find; cbn [entries].
  - now rewrite (find_replaced _ _ _ _ _ Hfind).
  - now rewrite (find_appended k _ (mkCacheEntry k v _ 1) Hfind eq_refl).
Qed.

Lemma cache_setitem_fits (env : Env) (c : LFUCache) (k : TileRequest)
    (v : StorageResponse) :
  sys_getsizeof env (data v) <= maxsize c ->
  exists c', cache_setitem env c k v = Ok c'.
Proof.
  intros Hfits. unfold cache_setitem.
  destruct (Z.gtb_spec (sys_getsizeof env (data v)) (maxsize c)); [ lia | ].
  cbv zeta.
  match goal with
  | |- exists _, match cache_find ?c0 k with _ => _ end = _ =>
      destruct (cache_find c0 k)
  end; eexists; reflexivity.
Qed.

(** The outcome of a fetch on a miss, by what the store answers. *)
Lemma metatile_fetch_miss (env : Env) (meta : TileRequest)
    (cache_info : CacheInfo) (st : AppState) :
  cache_lookup (metatile_lfu st) meta = None ->
  metatile_fetch env meta cache_info st
  = let get_params := get_params_for env meta cache_info in
    let calls := get_params :: s3_calls st in
    match get_object env get_params with
    | S3Response response =>
        let result :=
          mkStorageResponse (Body response)
            (mkCacheInfo (Some (LastModified response))
                         (Some (strip_quotes (ETag response)))) in
        match cache_setitem env (metatile_lfu st) meta result with
        | Ok cache => (Ok result, mkAppState cache calls)
        | Raise e => (Raise e, mkAppState (metatile_lfu st) calls)
        end
    | ClientError code =>
        (Raise (client_error_handler (Bucket get_params) (Key get_params)
                                     code),
         mkAppState (metatile_lfu st) calls)
    end.
Proof.
  intros Hmiss. unfold metatile_fetch.
  rewrite (cache_get_miss _ _ Hmiss). reflexivity.
Qed.

(** X8. A fetch that raises found nothing in the cache, asked the object
    store exactly once, and left the cache as it was; what it raises is one
    of the three fetch exceptions or a [ValueError], never an exception of the
    extraction stage. *)
Theorem metatile_fetch_failure_state (env : Env) (meta : TileRequest)
    (cache_info : CacheInfo) (st st' : AppState) (e : exn) :
  metatile_fetch env meta cache_info st = (Raise e, st') ->
  cache_lookup (metatile_lfu st) meta = None
  /\ st' = mkAppState (metatile_lfu st)
                      (get_params_for env meta cache_info :: s3_calls st)
  /\ (forall key, e <> TileNotFoundInMetatile key)
  /\ e <> BadZipFile.
Proof.
  destruct (cache_lookup (metatile_lfu st) meta) as [ hit | ] eqn:Hlook.
  - unfold metatile_fetch. rewrite (cache_get_hit _ _ _ Hlook). discriminate.
  - rewrite (metatile_fetch_miss _ _ _ _ Hlook). cbn zeta.
    destruct (get_object env (get_params_for env meta cache_info))
      as [ response | code ].
    + unfold cache_setitem.
      destruct (_ >? _).
      * intros [= <- <-]. repeat split; intros; discriminate.
      * cbv zeta.
        match goal with
        | |- context [match cache_find ?c0 meta with
                      | Some _ => Ok _ | None => _ end] =>
            destruct (cache_find c0 meta)
        end; discriminate.
    + intros [= <- <-]. split; [ reflexivity | ]. split; [ reflexivity | ].
      unfold client_error_handler.
      destruct (String.eqb _ "304"); [ split; intros; discriminate | ].
      destruct (String.eqb _ "NoSuchKey"); split; intros; discriminate.
Qed.

Lemma metatile_fetch_failure_state_witness :
  cache_lookup (metatile_lfu empty_state) (mkTileRequest 0 0 0 "zip") = None
  /\ mkAppState (metatile_lfu empty_state)
       (get_params_for (sample_env sample_store) (mkTileRequest 0 0 0 "zip")
                       (mkCacheInfo None None) :: s3_calls empty_state)
     = mkAppState (metatile_lfu empty_state)
         (get_params_for (sample_env sample_store)
            (mkTileRequest 0 0 0 "zip") (mkCacheInfo None None)
          :: s3_calls empty_state)
  /\ (forall key,
        MetatileNotFoundException
          "No tile found at s3://tiles/638d1/all/0/0/0.zip"
        <> TileNotFoundInMetatile key)
  /\ MetatileNotFoundException
       "No tile found at s3://tiles/638d1/all/0/0/0.zip"
     <> BadZipFile.
Proof.
  apply (metatile_fetch_failure_state (sample_env sample_store)
           (mkTileRequest 0 0 0 "zip") (mkCacheInfo None None) empty_state).
  vm_compute. reflexivity.
Defined.

(** X9. A fetch asks the object store at most once: not at all when the
    metatile is cached, and once, with the parameters built from the request,
    when it is not. Earlier calls stay on record. *)
Theorem metatile_fetch_store_calls (env : Env) (meta : TileRequest)
    (cache_info : CacheInfo) (st : AppState) :
  s3_calls (snd (metatile_fetch env meta cache_info st))
  = match cache_lookup (metatile_lfu st) meta with
    | Some _ => s3_calls st
    | None => get_params_for env meta cache_info :: s3_calls st
    end.
Proof.
  destruct (cache_lookup (metatile_lfu st) meta) as [ hit | ] eqn:Hlook.
  - unfold metatile_fetch. rewrite (cache_get_hit _ _ _ Hlook). reflexivity.
  - rewrite (metatile_fetch_miss _ _ _ _ Hlook). cbn zeta.
    destruct (get_object env (get_params_for env meta cache_info));
      [ | reflexivity ].
    destruct (cache_setitem env (metatile_lfu st) meta _); reflexivity.
Qed.

(** After a successful fetch the metatile is in the cache. *)
Lemma metatile_fetch_ok_cached (env : Env) (meta : TileRequest)
    (cache_info : CacheInfo) (st st' : AppState) (metatile : StorageResponse) :
  metatile_fetch env meta cache_info st = (Ok metatile, st') ->
  cache_lookup (metatile_lfu st') meta = Some metatile.
Proof.
  destruct (cache_lookup (metatile_lfu st) meta) as [ hit | ] eqn:Hlook.
  - unfold metatile_fetch. rewrite (cache_get_hit _ _ _ Hlook).
    intros [= <- <-]. cbn [metatile_lfu].
    pose proof (cache_lookup_after_get (metatile_lfu st) meta meta) as Hget.
    rewrite (cache_get_hit _ _ _ Hlook) in Hget. cbn [snd] in Hget.
    now rewrite Hget.
  - rewrite (metatile_fetch_miss _ _ _ _ Hlook). cbn zeta.
    destruct (get_object env (get_params_for env meta cache_info))
      as [ response | code ]; [ | discriminate ].
    destruct (cache_setitem env (metatile_lfu st) meta _) as [ c' | e ] eqn:Hset;
      [ | discriminate ].
    intros [= <- <-]. cbn [metatile_lfu].
    exact (cache_setitem_lookup _ _ _ _ _ Hset).
Qed.

(** X10. A fetch that succeeded can be repeated: fetching the same metatile
    in the resulting state returns the same object, for any validators and
    whatever the object store would now answer, without asking the store. *)
Theorem metatile_fetch_repeatable (env env' : Env) (meta : TileRequest)
    (cache_info cache_info' : CacheInfo) (st st' : AppState)
    (metatile : StorageResponse) :
  metatile_fetch env meta cache_info st = (Ok metatile, st') ->
  exists st'',
    metatile_fetch env' meta cache_info' st' = (Ok metatile, st'')
    /\ s3_calls st'' = s3_calls st'.
Proof.
  intros Hfetch.
  pose proof (metatile_fetch_ok_cached _ _ _ _ _ _ Hfetch) as Hlook.
  unfold metatile_fetch. rewrite (cache_get_hit _ _ _ Hlook).
  eexists. split; reflexivity.
Qed.

(** A second fetch with validators, in front of a store that would answer
    ["304"]. *)
Lemma metatile_fetch_repeatable_witness :
  exists st'',
    metatile_fetch (sample_env (fun _ => ClientError (Some "304")))
      (mkTileRequest 2 1 1 "zip")
      (mkCacheInfo (Some 1541289600) (Some "5d41402a")) warm_state
    = (Ok (mkStorageResponse [x50; x4b]
             (mkCacheInfo (Some 1541289600) (Some "5d41402a"))), st'')
    /\ s3_calls st'' = s3_calls warm_state.
Proof.
  apply (metatile_fetch_repeatable (sample_env sample_store)
           (sample_env (fun _ => ClientError (Some "304")))
           (mkTileRequest 2 1 1 "zip") (mkCacheInfo None None)
           (mkCacheInfo (Some 1541289600) (Some "5d41402a")) empty_state).
  vm_compute. reflexivity.
Defined.

(** X11. On a miss, when the object store returns an object whose size is
    within the cache's budget, the fetch returns the object's body with its
    [LastModified] and its [ETag] less the first and last character, has asked
    the store once, and the metatile is in the cache afterwards. *)
Theorem metatile_fetch_miss_stores (env : Env) (meta : TileRequest)
    (cache_info : CacheInfo) (st : AppState) (response : GetObjectOutput) :
  cache_lookup (metatile_lfu st) meta = None ->
  get_object env (get_params_for env meta cache_info) = S3Response response ->
  sys_getsizeof env (Body response) <= maxsize (metatile_lfu st) ->
  let result :=
    mkStorageResponse (Body response)
      (mkCacheInfo (Some (LastModified response))
                   (Some (strip_quotes (ETag response)))) in
  exists st',
    metatile_fetch env meta cache_info st = (Ok result, st')
    /\ s3_calls st' = get_params_for env meta cache_info :: s3_calls st
    /\ cache_lookup (metatile_lfu st') meta = Some result.
Proof.
  intros Hlook Hs3 Hfits result.
  rewrite (metatile_fetch_miss _ _ _ _ Hlook). cbn zeta. rewrite Hs3.
  fold result.
  destruct (cache_setitem_fits env (metatile_lfu st) meta result Hfits)
    as [ c' Hset ].
  rewrite Hset. eexists. split; [ reflexivity | ].
  split; [ reflexivity | ]. cbn [metatile_lfu].
  exact (cache_setitem_lookup _ _ _ _ _ Hset).
Qed.

Lemma metatile_fetch_miss_stores_witness :
  exists st',
    metatile_fetch (sample_env sample_store) (mkTileRequest 2 1 1 "zip")
      (mkCacheInfo None None) empty_state
    = (Ok (mkStorageResponse [x50; x4b]
             (mkCacheInfo (Some 1541289600) (Some (strip_quotes "'5d41402a'")))),
       st')
    /\ s3_calls st'
       = get_params_for (sample_env sample_store) (mkTileRequest 2 1 1 "zip")
           (mkCacheInfo None None) :: s3_calls empty_state
    /\ cache_lookup (metatile_lfu st') (mkTileRequest 2 1 1 "zip")
       = Some (mkStorageResponse [x50; x4b]
                 (mkCacheInfo (Some 1541289600)
                              (Some (strip_quotes "'5d41402a'")))).
Proof.
  apply (metatile_fetch_miss_stores (sample_env sample_store)
           (mkTileRequest 2 1 1 "zip") (mkCacheInfo None None) empty_state
           (mkGetObjectOutput "'5d41402a'" [x50; x4b] 1541289600 2)).
  - reflexivity.
  - vm_compute. reflexivity.
  - vm_compute. discriminate.
Defined.

(** X12. On a miss, an object larger than the cache's budget makes the fetch
    raise [ValueError] after the store has been asked; nothing is cached: the
    resulting state differs from the initial one by the recorded call only. *)
Theorem metatile_fetch_too_large (env : Env) (meta : TileRequest)
    (cache_info : CacheInfo) (st : AppState) (response : GetObjectOutput) :
  cache_lookup (metatile_lfu st) meta = None ->
  get_object env (get_params_for env meta cache_info) = S3Response response ->
  maxsize (metatile_lfu st) < sys_getsizeof env (Body response) ->
  metatile_fetch env meta cache_info st
  = (Raise (ValueError "value too large"),
     mkAppState (metatile_lfu st)
                (get_params_for env meta cache_info :: s3_calls st)).
Proof.
  intros Hlook Hs3 Hbig.
  rewrite (metatile_fetch_miss _ _ _ _ Hlook). cbn zeta. rewrite Hs3.
  unfold cache_setitem. cbn [data].
  destruct (Z.gtb_spec (sys_getsizeof env (Body response))
              (maxsize (metatile_lfu st))); [ reflexivity | lia ].
Qed.

Lemma metatile_fetch_too_large_witness :
  metatile_fetch (sample_env sample_store) (mkTileRequest 2 1 1 "zip")
    (mkCacheInfo None None) (mkAppState (mkLFUCache 34 0 []) [])
  = (Raise (ValueError "value too large"),
     mkAppState (mkLFUCache 34 0 [])
       [get_params_for (sample_env sample_store) (mkTileRequest 2 1 1 "zip")
          (mkCacheInfo None None)]).
Proof.
  apply (metatile_fetch_too_large (sample_env sample_store)
           (mkTileRequest 2 1 1 "zip") (mkCacheInfo None None)
           (mkAppState (mkLFUCache 34 0 []) [])
           (mkGetObjectOutput "'5d41402a'" [x50; x4b] 1541289600 2)).
  - reflexivity.
  - vm_compute. reflexivity.
  - vm_compute. reflexivity.
Defined.

(** X13. A retrieval that fails because the archive cannot be read or lacks
    the tile has still cached the metatile: the exception names the entry
    looked for, and the metatile is found in the cache of the resulting
    state. *)
Theorem retrieve_tile_extract_failure_keeps_metatile (env : Env)
    (meta offset : TileRequest) (cache_info_ : CacheInfo)
    (st st' : AppState) (e : exn) :
  retrieve_tile env meta offset cache_info_ st = (Raise e, st') ->
  e = BadZipFile \/ (exists key, e = TileNotFoundInMetatile key) ->
  (e = BadZipFile \/ e = TileNotFoundInMetatile (offset_key offset))
  /\ exists metatile,
       metatile_fetch env meta cache_info_ st = (Ok metatile, st')
       /\ cache_lookup (metatile_lfu st') meta = Some metatile.
Proof.
  intros Hretrieve Hkind.
  destruct (metatile_fetch env meta cache_info_ st) as [ fetched st1 ] eqn:Hf.
  destruct fetched as [ metatile | e1 ].
  - rewrite (retrieve_tile_fetch_ok _ _ _ _ _ _ _ Hf) in Hretrieve.
    unfold extract_tile in Hretrieve.
    assert (Hst : st1 = st') by (now injection Hretrieve). subst st1.
    split.
    + destruct (ZipFile env (data metatile)) as [ archive | ].
      * destruct (archive !! offset_key offset);
          [ discriminate Hretrieve | ].
        injection Hretrieve as <-. now right.
      * injection Hretrieve as <-. now left.
    + exists metatile. split; [ reflexivity | ].
      exact (metatile_fetch_ok_cached _ _ _ _ _ _ Hf).
  - rewrite (retrieve_tile_fetch_raises _ _ _ _ _ _ _ Hf) in Hretrieve.
    injection Hretrieve as <- <-. exfalso.
    unfold metatile_fetch in Hf.
    destruct (cache_get (metatile_lfu st) meta) as [ [ hit | ] c ];
      [ discriminate Hf | ].
    destruct (get_object env (get_params_for env meta cache_info_))
      as [ response | code ].
    + unfold cache_setitem in Hf.
      destruct (_ >? _) in Hf.
      * injection Hf as <- _.
        destruct Hkind as [ Hk | [ key Hk ] ]; discriminate Hk.
      * cbv zeta in Hf.
        match type of Hf with
        | context [match cache_find ?c0 meta with
                   | Some _ => Ok _ | None => _ end] =>
            destruct (cache_find c0 meta)
        end; discriminate Hf.
    + injection Hf as <- _. unfold client_error_handler in Hkind.
      destruct (String.eqb _ "304");
        [ destruct Hkind as [ Hk | [ key Hk ] ]; discriminate Hk | ].
      destruct (String.eqb _ "NoSuchKey");
        destruct Hkind as [ Hk | [ key Hk ] ]; discriminate Hk.
Qed.

Lemma retrieve_tile_extract_failure_keeps_metatile_witness :
  (TileNotFoundInMetatile "3/0/0.mvt" = BadZipFile
   \/ TileNotFoundInMetatile "3/0/0.mvt"
      = TileNotFoundInMetatile (offset_key (mkTileRequest 3 0 0 "mvt")))
  /\ exists metatile,
       metatile_fetch (sample_env sample_store) (mkTileRequest 2 1 1 "zip")
         (mkCacheInfo None None) empty_state = (Ok metatile, warm_state)
       /\ cache_lookup (metatile_lfu warm_state) (mkTileRequest 2 1 1 "zip")
          = Some metatile.
Proof.
  apply (retrieve_tile_extract_failure_keeps_metatile
           (sample_env sample_store) (mkTileRequest 2 1 1 "zip")
           (mkTileRequest 3 0 0 "mvt") (mkCacheInfo None None) empty_state).
  - vm_compute. reflexivity.
  - right. eexists. reflexivity.
Defined.

(** ** Further properties of the keys and names *)

Lemma append_char (c : ascii) (s : string) :
  String c EmptyString +:+ s = String c s.
Proof. reflexivity. Qed.

Lemma append_inv_head (s a b : string) : s +:+ a = s +:+ b -> a = b.
Proof.
  induction s as [ | c s IH ]; rewrite ?append_cons, ?append_empty.
  - trivial.
  - intros [= H]. now apply IH.
Qed.

Lemma append_inv_length (h1 h2 a b : string) :
  String.length h1 = String.length h2 -> h1 +:+ a = h2 +:+ b -> a = b.
Proof.
  revert h2. induction h1 as [ | c h1 IH ]; intros [ | c2 h2 ] Hlen;
    try discriminate Hlen; rewrite ?append_cons, ?append_empty.
  - trivial.
  - intros [= _ H]. injection Hlen as Hlen. now apply (IH h2).
Qed.

(** Splitting at the first occurrence of a character. *)
Lemma append_split (c : ascii) (s s' t t' : string) :
  ~ In c (list_ascii_of_string s) -> ~ In c (list_ascii_of_string s') ->
  s +:+ String c t = s' +:+ String c t' -> s = s' /\ t = t'.
Proof.
  revert s'. induction s as [ | a s IH ]; intros [ | a' s' ] Hs Hs';
    rewrite ?append_cons, ?append_empty; intros H.
  - injection H as H. now subst.
  - injection H as H1 H2. subst. exfalso. apply Hs'. now left.
  - injection H as H1 H2. subst. exfalso. apply Hs. now left.
  - injection H as H1 H2. subst a'.
    destruct (IH s') as [ -> -> ]; [ | | exact H2 | now split ].
    + intros Hin. apply Hs. now right.
    + intros Hin. apply Hs'. now right.
Qed.

(** [str] of an integer shows digits and at most a sign. *)
Lemma string_of_uint_chars (u : Decimal.uint) (c : ascii) :
  In c (list_ascii_of_string (NilEmpty.string_of_uint u)) ->
  c <> "/"%char /\ c <> "."%char.
Proof.
  induction u; cbn [NilEmpty.string_of_uint list_ascii_of_string In];
    (intros [ <- | Hin ]; [ split; discriminate | now apply IHu ])
    || (intros []).
Qed.

Lemma str_int_chars (n : Z) (c : ascii) :
  In c (list_ascii_of_string (str_int n)) -> c <> "/"%char /\ c <> "."%char.
Proof.
  assert (Hu : forall u, In c (list_ascii_of_string (NilZero.string_of_uint u))
                         -> c <> "/"%char /\ c <> "."%char).
  { intros u. unfold NilZero.string_of_uint.
    destruct u; try apply string_of_uint_chars.
    cbn. intros [ <- | [] ]. split; discriminate. }
  unfold str_int, NilZero.string_of_int.
  destruct (Z.to_int n) as [ u | u ]; [ apply Hu | ].
  cbn [list_ascii_of_string In]. intros [ <- | Hin ];
    [ split; discriminate | exact (Hu u Hin) ].
Qed.

Lemma str_int_inj (n1 n2 : Z) : str_int n1 = str_int n2 -> n1 = n2.
Proof.
  assert (Hnn : forall n, Z.to_int n <> Decimal.Pos Decimal.Nil
                          /\ Z.to_int n <> Decimal.Neg Decimal.Nil).
  { intros [ | p | p ]; unfold Z.to_int; split; try discriminate;
      intros [= E]; now apply DecimalPos.Unsigned.to_uint_nonnil in E. }
  unfold str_int. intros H.
  apply (f_equal NilZero.int_of_string) in H.
  destruct (Hnn n1) as [ Ha Hb ], (Hnn n2) as [ Hc Hd ].
  rewrite (NilZero.isi _ Ha Hb), (NilZero.isi _ Hc Hd) in H.
  injection H as H.
  rewrite <- (DecimalZ.of_to n1), <- (DecimalZ.of_to n2). now rewrite H.
Qed.

(** The text ["<z>/<x>/<y>.<format>"] determines its four parts. *)
Lemma tile_name_inj (z1 x1 y1 z2 x2 y2 : Z) (f1 f2 : string) :
  str_int z1 +:+ "/" +:+ str_int x1 +:+ "/" +:+ str_int y1 +:+ "." +:+ f1
  = str_int z2 +:+ "/" +:+ str_int x2 +:+ "/" +:+ str_int y2 +:+ "." +:+ f2 ->
  z1 = z2 /\ x1 = x2 /\ y1 = y2 /\ f1 = f2.
Proof.
  intros H.
  change (str_int z1
            +:+ String "/" (str_int x1
                  +:+ String "/" (str_int y1 +:+ String "." f1))
          = str_int z2
              +:+ String "/" (str_int x2
                    +:+ String "/" (str_int y2 +:+ String "." f2))) in H.
  assert (Hns : forall n, ~ In "/"%char (list_ascii_of_string (str_int n))).
  { intros n Hin. apply str_int_chars in Hin as [ Hin _ ]. now apply Hin. }
  assert (Hnd : forall n, ~ In "."%char (list_ascii_of_string (str_int n))).
  { intros n Hin. apply str_int_chars in Hin as [ _ Hin ]. now apply Hin. }
  apply (append_split _ _ _ _ _ (Hns z1) (Hns z2)) in H as [ Hz H ].
  apply (append_split _ _ _ _ _ (Hns x1) (Hns x2)) in H as [ Hx H ].
  apply (append_split _ _ _ _ _ (Hnd y1) (Hnd y2)) in H as [ Hy H ].
  apply str_int_inj in Hz, Hx, Hy. now subst.
Qed.

Lemma tile_path_inj (layer : string) (t1 t2 : TileRequest) :
  tile_path layer t1 = tile_path layer t2 -> t1 = t2.
Proof.
  destruct t1 as [ z1 x1 y1 f1 ], t2 as [ z2 x2 y2 f2 ].
  unfold tile_path. cbn [z x y format]. intros H.
  change (String "/" (layer +:+ String "/"
            (str_int z1 +:+ "/" +:+ str_int x1 +:+ "/" +:+ str_int y1
               +:+ "." +:+ f1))
          = String "/" (layer +:+ String "/"
              (str_int z2 +:+ "/" +:+ str_int x2 +:+ "/" +:+ str_int y2
                 +:+ "." +:+ f2))) in H.
  injection H as H. apply append_inv_head in H. injection H as H.
  apply tile_name_inj in H as (-> & -> & -> & ->). reflexivity.
Qed.

(** X15. Two different offsets never share an entry name in the archive. *)
Theorem offset_key_injective (o1 o2 : TileRequest) :
  o1 <> o2 -> offset_key o1 <> offset_key o2.
Proof.
  intros Hne H. apply Hne.
  destruct o1 as [ z1 x1 y1 f1 ], o2 as [ z2 x2 y2 f2 ].
  unfold offset_key in H. cbn [z x y format] in H.
  apply tile_name_inj in H as (-> & -> & -> & ->). reflexivity.
Qed.

Lemma offset_key_injective_witness :
  offset_key (mkTileRequest 1 1 0 "mvt")
  <> offset_key (mkTileRequest 1 10 0 "mvt").
Proof.
  apply (offset_key_injective (mkTileRequest 1 1 0 "mvt")
           (mkTileRequest 1 10 0 "mvt")).
  discriminate.
Defined.

(** X16. For a given prefix, layer and hash setting, two different metatiles
    never share a storage key. *)
Theorem compute_key_injective (prefix : option string) (layer : string)
    (t1 t2 : TileRequest) (include_hash : bool) :
  t1 <> t2 ->
  compute_key prefix layer t1 include_hash
  <> compute_key prefix layer t2 include_hash.
Proof.
  intros Hne H. apply Hne. revert H.
  unfold compute_key. cbv zeta. intros H.
  apply (tile_path_inj layer).
  assert (Hpath : forall t, exists r, tile_path layer t = String "/" r)
    by (intros t; eexists; reflexivity).
  destruct (Hpath t1) as [ r1 Hr1 ], (Hpath t2) as [ r2 Hr2 ].
  assert (Hlast : forall K1 K2 R1 R2,
            K1 = String "/" R1 -> K2 = String "/" R2 ->
            str_tail match prefix with
                     | Some p =>
                         if truthy_str (Some p) then "/" +:+ p +:+ K1 else K1
                     | None => K1
                     end
            = str_tail match prefix with
                       | Some p =>
                           if truthy_str (Some p) then "/" +:+ p +:+ K2
                           else K2
                       | None => K2
                       end ->
            K1 = K2).
  { intros K1 K2 R1 R2 -> -> HK.
    destruct prefix as [ p | ]; [ destruct (truthy_str (Some p)) | ].
    - change (p +:+ String "/" R1 = p +:+ String "/" R2) in HK.
      now apply append_inv_head in HK.
    - cbn [str_tail] in HK. now rewrite HK.
    - cbn [str_tail] in HK. now rewrite HK. }
  destruct include_hash.
  - apply (Hlast _ _ _ _ eq_refl eq_refl) in H.
    injection H as H.
    apply append_inv_length in H; [ exact H | ].
    rewrite !slice_length; [ reflexivity | | ];
      rewrite hexdigest_length; lia.
  - exact (Hlast _ _ _ _ Hr1 Hr2 H).
Qed.

Lemma compute_key_injective_witness :
  compute_key (Some "v1") "all" (mkTileRequest 2 1 1 "zip") true
  <> compute_key (Some "v1") "all" (mkTileRequest 2 11 1 "zip") true.
Proof.
  apply (compute_key_injective (Some "v1") "all" (mkTileRequest 2 1 1 "zip")
           (mkTileRequest 2 11 1 "zip") true).
  discriminate.
Defined.

(** ** Properties of the tile route *)

Lemma meta_and_offset_invalid (requested_tile : TileRequest)
    (meta_size tile_size : Z) (mdz : option Z) :
  ~ power_of_two meta_size \/ ~ power_of_two tile_size
  \/ meta_size < tile_size ->
  exists msg,
    meta_and_offset requested_tile meta_size tile_size mdz
    = Raise (ValueError msg).
Proof.
  intros Hbad. unfold meta_and_offset.
  destruct (is_power_of_two meta_size) eqn:Em; cbn [negb];
    [ | eexists; reflexivity ].
  destruct (is_power_of_two tile_size) eqn:Et; cbn [negb];
    [ | eexists; reflexivity ].
  apply is_power_of_two_spec in Em, Et.
  destruct Hbad as [Hbad | [Hbad | Hlt]]; [ contradiction | contradiction | ].
  pose proof (size_to_zoom_le _ _ Et Em) as Hiff.
  destruct (Z.gtb_spec (size_to_zoom tile_size) (size_to_zoom meta_size))
    as [ Hgt | Hzoom ]; [ eexists; reflexivity | ].
  apply Hiff in Hzoom. lia.
Qed.

Lemma meta_and_offset_unit_tile (requested_tile : TileRequest)
    (meta_size : Z) (mdz mdz' : option Z) :
  meta_and_offset requested_tile meta_size 1 mdz
  = meta_and_offset requested_tile meta_size 1 mdz'.
Proof.
  assert (Hnone : forall o,
            meta_and_offset requested_tile meta_size 1 o
            = meta_and_offset requested_tile meta_size 1 None).
  { intros o. unfold meta_and_offset.
    destruct (negb (is_power_of_two meta_size)); [ reflexivity | ].
    destruct (negb (is_power_of_two 1)); [ reflexivity | ].
    destruct (size_to_zoom 1 >? size_to_zoom meta_size); [ reflexivity | ].
    change (size_to_zoom 1) with 0.
    destruct (z requested_tile <? size_to_zoom meta_size - 0);
      [ reflexivity | ].
    f_equal. unfold clamp_delta_z, max_detail_applies.
    destruct o as [m | ]; [ | reflexivity ].
    destruct (truthy_int (Some m)); cbn [andb]; [ | reflexivity ].
    destruct (Z.gtb_spec (z requested_tile - (size_to_zoom meta_size - 0)) m);
      lia. }
  now rewrite (Hnone mdz), (Hnone mdz').
Qed.

(** [meta_and_offset] raises nothing but [ValueError]. *)
Lemma meta_and_offset_raises_value_error (requested_tile : TileRequest)
    (meta_size tile_size : Z) (mdz : option Z) (e : exn) :
  meta_and_offset requested_tile meta_size tile_size mdz = Raise e ->
  exists msg, e = ValueError msg.
Proof.
  unfold meta_and_offset.
  destruct (negb (is_power_of_two meta_size));
    [ intros [= <-]; eexists; reflexivity | ].
  destruct (negb (is_power_of_two tile_size));
    [ intros [= <-]; eexists; reflexivity | ].
  destruct (size_to_zoom tile_size >? size_to_zoom meta_size);
    [ intros [= <-]; eexists; reflexivity | ].
  destruct (z requested_tile <? _); [ discriminate | ].
  unfold split_tile, py_rshift, py_lshift.
  destruct (_ <? 0); cbn [rbind]; [ | discriminate ].
  intros [= <-]. eexists. reflexivity.
Qed.


(** X17. Whenever the handler answers, instead of letting an exception
    through, the answer is one of these: a response with status 200, marked
    public, whose content type is the entry of [MIME_TYPES] for the requested
    format (none for an unknown format); a 404 with the text
    ["Metatile not found"] or ["Tile not found"]; a 304 with an empty body; a
    500 with the text ["Metatile fetch problem"]; or an abort with status
    400, and then the pixel size is not a multiple of 256. Nothing is said
    of the exceptions. *)
Theorem handle_tile_answers (env : Env) (rc : RouteConfig)
    (parse : string -> result datetime) (headers : Headers)
    (rz rx ry : Z) (fmt : string) (tile_pixel_size : option Z)
    (st : AppState) :
  match fst (handle_tile env rc parse headers rz rx ry fmt tile_pixel_size st)
  with
  | Responded r =>
      status_code r = 200 /\ public (cache_control r) = true
      /\ content_type r = MIME_TYPES !! fmt
  | Plain body status =>
      (status = 404
       /\ (body = "Metatile not found" \/ body = "Tile not found"))
      \/ (status = 304 /\ body = EmptyString)
      \/ (status = 500 /\ body = "Metatile fetch problem")
  | Aborted status _ =>
      status = 400 /\ pixel_size_or_default tile_pixel_size mod 256 <> 0
  | Uncaught _ => True
  end.
Proof.
  unfold handle_tile. cbv zeta.
  destruct (Z.eqb_spec (pixel_size_or_default tile_pixel_size mod 256) 0)
    as [ Hpix | Hpix ]; cbn [negb]; [ | cbn [fst]; now split ].
  destruct (meta_and_offset _ _ _ _) as [ [ meta offset ] | e ];
    [ | exact I ].
  destruct (parse_header_time parse (If_Modified_Since headers))
    as [ header_time | e ]; [ | exact I ].
  destruct (retrieve_tile env meta offset _ st) as [ [ sr | e ] st' ].
  - cbn. repeat split.
  - destruct e; cbn [fst]; tauto.
Qed.



(** X19. A pixel size below [2^53] that is a multiple of 256 but whose tile
    size is not a power of two, or exceeds the metatile size, is not answered
    with a 400: the [ValueError] of the address resolution leaves the
    handler, before any header is parsed, with the application state
    untouched. *)
Theorem handle_tile_invalid_tile_size (env : Env) (rc : RouteConfig)
    (parse : string -> result datetime) (headers : Headers)
    (rz rx ry : Z) (fmt : string) (tile_pixel_size : option Z)
    (st : AppState) :
  pixel_size_or_default tile_pixel_size < 2 ^ 53 ->
  pixel_size_or_default tile_pixel_size mod 256 = 0 ->
  ~ power_of_two (pixel_size_or_default tile_pixel_size / 256)
  \/ METATILE_SIZE rc < pixel_size_or_default tile_pixel_size / 256 ->
  exists msg,
    handle_tile env rc parse headers rz rx ry fmt tile_pixel_size st
    = (Uncaught (ValueError msg), st).
Proof.
  intros _ Hpix Hbad.
  destruct (meta_and_offset_invalid (mkTileRequest rz rx ry fmt)
              (METATILE_SIZE rc)
              (pixel_size_or_default tile_pixel_size / 256)
              (METATILE_MAX_DETAIL_ZOOM rc)) as [ msg Hmsg ].
  { destruct Hbad as [ Hbad | Hbad ];
      [ right; left; exact Hbad | right; right; exact Hbad ]. }
  exists msg. unfold handle_tile. cbv zeta.
  rewrite (proj2 (Z.eqb_eq _ _) Hpix). cbn [negb].
  now rewrite Hmsg.
Qed.

Lemma handle_tile_invalid_tile_size_witness :
  exists msg,
    handle_tile (sample_env sample_store) sample_route sample_parse
      (mkHeaders (Some "yesterday") None) 5 20 12 "mvt" (Some 768)
      empty_state
    = (Uncaught (ValueError msg), empty_state).
Proof.
  apply (handle_tile_invalid_tile_size (sample_env sample_store) sample_route
           sample_parse (mkHeaders (Some "yesterday") None) 5 20 12 "mvt"
           (Some 768) empty_state).
  - reflexivity.
  - reflexivity.
  - left. intros H. apply is_power_of_two_spec in H. discriminate H.
Defined.



(** X21. A request without a pixel size, with pixel size 0 or with pixel
    size 256 is handled in the same way, and for such a request the max
    detail zoom of the settings has no effect. *)
Theorem handle_tile_default_pixel_size (env : Env) (rc : RouteConfig)
    (parse : string -> result datetime) (headers : Headers)
    (rz rx ry : Z) (fmt : string) (st : AppState) (mdz' : option Z) :
  handle_tile env rc parse headers rz rx ry fmt (Some 0) st
  = handle_tile env rc parse headers rz rx ry fmt None st
  /\ handle_tile env rc parse headers rz rx ry fmt (Some 256) st
     = handle_tile env rc parse headers rz rx ry fmt None st
  /\ handle_tile env
       (mkRouteConfig (METATILE_SIZE rc) mdz' (CACHE_MAX_AGE rc)
                      (SHARED_CACHE_MAX_AGE rc))
       parse headers rz rx ry fmt None st
     = handle_tile env rc parse headers rz rx ry fmt None st.
Proof.
  split; [ reflexivity | ]. split; [ reflexivity | ].
  unfold handle_tile. cbv zeta.
  change (pixel_size_or_default None) with 256.
  change (256 mod 256 =? 0) with true. change (256 / 256) with 1.
  cbn [negb METATILE_SIZE METATILE_MAX_DETAIL_ZOOM CACHE_MAX_AGE
       SHARED_CACHE_MAX_AGE].
  now rewrite (meta_and_offset_unit_tile _ _ mdz'
                 (METATILE_MAX_DETAIL_ZOOM rc)).
Qed.

(** X22. With a metatile size up to [2^29], a response with status 200
    carries the bytes of an archive entry: the request resolves to a metatile
    and an offset, that metatile is in the cache once the handler returns,
    its archive has the entry named after the offset, and the body,
    last-modified time and entity tag of the response are that entry and the
    metatile's own validators. (The tile size of a request that resolves is
    at most the metatile size, which keeps the pixel size below [2^37].) *)
Theorem handle_tile_response_is_entry (env : Env) (rc : RouteConfig)
    (parse : string -> result datetime) (headers : Headers)
    (rz rx ry : Z) (fmt : string) (tile_pixel_size : option Z)
    (st st' : AppState) (r : Response) :
  METATILE_SIZE rc <= 2 ^ 29 ->
  handle_tile env rc parse headers rz rx ry fmt tile_pixel_size st
  = (Responded r, st') ->
  exists meta offset metatile archive,
    meta_and_offset (mkTileRequest rz rx ry fmt) (METATILE_SIZE rc)
      (pixel_size_or_default tile_pixel_size / 256)
      (METATILE_MAX_DETAIL_ZOOM rc) = Ok (meta, offset)
    /\ cache_lookup (metatile_lfu st') meta = Some metatile
    /\ ZipFile env (data metatile) = Some archive
    /\ archive !! offset_key offset = Some (response_data r)
    /\ response_last_modified r = last_modified (cache_info metatile)
    /\ response_etag r = etag (cache_info metatile).
Proof.
  intros _. unfold handle_tile. cbv zeta.
  destruct (negb _); [ discriminate | ].
  destruct (meta_and_offset _ _ _ _) as [ [ meta offset ] | e ];
    [ | discriminate ].
  destruct (parse_header_time parse (If_Modified_Since headers))
    as [ header_time | e ]; [ | discriminate ].
  unfold retrieve_tile.
  destruct (metatile_fetch env meta _ st) as [ [ metatile | e ] st1 ] eqn:Hf;
    [ | destruct e; discriminate ].
  unfold extract_tile.
  destruct (ZipFile env (data metatile)) as [ archive | ] eqn:Hzip;
    [ | discriminate ].
  destruct (archive !! offset_key offset) as [ tile | ] eqn:Hentry;
    [ | discriminate ].
  intros [= <- <-]. exists meta, offset, metatile, archive.
  split; [ reflexivity | ].
  split; [ exact (metatile_fetch_ok_cached _ _ _ _ _ _ Hf) | ].
  split; [ exact Hzip | ]. split; [ exact Hentry | ].
  split; reflexivity.
Qed.

Lemma handle_tile_response_is_entry_witness :
  exists meta offset metatile archive,
    meta_and_offset (mkTileRequest 5 10 12 "mvt") (METATILE_SIZE sample_route)
      (pixel_size_or_default None / 256)
      (METATILE_MAX_DETAIL_ZOOM sample_route) = Ok (meta, offset)
    /\ cache_lookup (metatile_lfu warm_state) meta = Some metatile
    /\ ZipFile (sample_env sample_store) (data metatile) = Some archive
    /\ archive !! offset_key offset = Some [x07; x08]
    /\ Some 1541289600 = last_modified (cache_info metatile)
    /\ Some "5d41402a" = etag (cache_info metatile).
Proof.
  apply (handle_tile_response_is_entry (sample_env sample_store) sample_route
           sample_parse (mkHeaders None None) 5 10 12 "mvt" None empty_state
           warm_state
           (mkResponse [x07; x08] 200 (Some "application/x-protobuf")
              (Some 1541289600) (mkCacheControl true (Some 300) None)
              (Some "5d41402a"))).
  - vm_compute. discriminate.
  - vm_compute. reflexivity.
Defined.
